(** * Kinematics skeleton of the Fanuc lab: a shallow embedding

    The development follows the Python sources
    - [general_utility.py]  (shape check, KDL/numpy conversions, YAML loader),
    - [robot_components.py] (classes [Brush] and [Joint]),
    - [fanuc.py]            ([dh_tf], [make_frame], class [Fanuc]).

    Floating-point numbers are idealised as real numbers.  Python objects that
    the code passes around (None, Ellipsis, ints, lists, numpy arrays) are
    values of one tagged type [pyobj]; a raised exception is the [Raise]
    branch of [result]. *)

From Stdlib Require Import Reals Lra ZArith Lia List Bool String.
Import ListNotations.

Set Implicit Arguments.

(* ================================================================== *)
(** ** Exceptions and fallible computations *)

Inductive exn : Type :=
| TypeError
| ValueError
| IndexError
| OSError.

Inductive result (A : Type) : Type :=
| Ok (a : A)
| Raise (e : exn).

Arguments Ok {A} a.
Arguments Raise {A} e.

Definition bind {A B : Type} (r : result A) (k : A -> result B) : result B :=
  match r with
  | Ok a => k a
  | Raise e => Raise e
  end.

Definition raises {A : Type} (r : result A) : Prop :=
  exists e, r = Raise e.

Declare Scope py_scope.
Delimit Scope py_scope with py.
Notation "x <- r ;; k" := (bind r (fun x => k))
  (at level 61, r at next level, right associativity) : py_scope.

(* ================================================================== *)
(** ** Real matrices: 3x3 rotations and 4x4 homogeneous frames *)

Local Open Scope R_scope.

Record vec3 : Type := Vec3 { vx : R; vy : R; vz : R }.

Record mat3 : Type := Mat3 {
  r00 : R; r01 : R; r02 : R;
  r10 : R; r11 : R; r12 : R;
  r20 : R; r21 : R; r22 : R }.

Record mat4 : Type := Mat4 {
  m00 : R; m01 : R; m02 : R; m03 : R;
  m10 : R; m11 : R; m12 : R; m13 : R;
  m20 : R; m21 : R; m22 : R; m23 : R;
  m30 : R; m31 : R; m32 : R; m33 : R }.

Definition I3 : mat3 := Mat3 1 0 0  0 1 0  0 0 1.

Definition I4 : mat4 := Mat4 1 0 0 0  0 1 0 0  0 0 1 0  0 0 0 1.

Definition mmul3 (a b : mat3) : mat3 :=
  Mat3
    (r00 a * r00 b + r01 a * r10 b + r02 a * r20 b)
    (r00 a * r01 b + r01 a * r11 b + r02 a * r21 b)
    (r00 a * r02 b + r01 a * r12 b + r02 a * r22 b)
    (r10 a * r00 b + r11 a * r10 b + r12 a * r20 b)
    (r10 a * r01 b + r11 a * r11 b + r12 a * r21 b)
    (r10 a * r02 b + r11 a * r12 b + r12 a * r22 b)
    (r20 a * r00 b + r21 a * r10 b + r22 a * r20 b)
    (r20 a * r01 b + r21 a * r11 b + r22 a * r21 b)
    (r20 a * r02 b + r21 a * r12 b + r22 a * r22 b).

Definition transpose3 (a : mat3) : mat3 :=
  Mat3 (r00 a) (r10 a) (r20 a)
       (r01 a) (r11 a) (r21 a)
       (r02 a) (r12 a) (r22 a).

Definition det3 (a : mat3) : R :=
  r00 a * (r11 a * r22 a - r12 a * r21 a)
  - r01 a * (r10 a * r22 a - r12 a * r20 a)
  + r02 a * (r10 a * r21 a - r11 a * r20 a).

Definition mmul4 (a b : mat4) : mat4 :=
  Mat4
    (m00 a * m00 b + m01 a * m10 b + m02 a * m20 b + m03 a * m30 b)
    (m00 a * m01 b + m01 a * m11 b + m02 a * m21 b + m03 a * m31 b)
    (m00 a * m02 b + m01 a * m12 b + m02 a * m22 b + m03 a * m32 b)
    (m00 a * m03 b + m01 a * m13 b + m02 a * m23 b + m03 a * m33 b)
    (m10 a * m00 b + m11 a * m10 b + m12 a * m20 b + m13 a * m30 b)
    (m10 a * m01 b + m11 a * m11 b + m12 a * m21 b + m13 a * m31 b)
    (m10 a * m02 b + m11 a * m12 b + m12 a * m22 b + m13 a * m32 b)
    (m10 a * m03 b + m11 a * m13 b + m12 a * m23 b + m13 a * m33 b)
    (m20 a * m00 b + m21 a * m10 b + m22 a * m20 b + m23 a * m30 b)
    (m20 a * m01 b + m21 a * m11 b + m22 a * m21 b + m23 a * m31 b)
    (m20 a * m02 b + m21 a * m12 b + m22 a * m22 b + m23 a * m32 b)
    (m20 a * m03 b + m21 a * m13 b + m22 a * m23 b + m23 a * m33 b)
    (m30 a * m00 b + m31 a * m10 b + m32 a * m20 b + m33 a * m30 b)
    (m30 a * m01 b + m31 a * m11 b + m32 a * m21 b + m33 a * m31 b)
    (m30 a * m02 b + m31 a * m12 b + m32 a * m22 b + m33 a * m32 b)
    (m30 a * m03 b + m31 a * m13 b + m32 a * m23 b + m33 a * m33 b).

(** The upper-left 3x3 block of a frame. *)
Definition rotation_block (a : mat4) : mat3 :=
  Mat3 (m00 a) (m01 a) (m02 a)
       (m10 a) (m11 a) (m12 a)
       (m20 a) (m21 a) (m22 a).

(** Elementary rotations about the coordinate axes. *)
Definition RotX (t : R) : mat3 :=
  Mat3 1 0 0
       0 (cos t) (- sin t)
       0 (sin t) (cos t).

Definition RotY (t : R) : mat3 :=
  Mat3 (cos t) 0 (sin t)
       0 1 0
       (- sin t) 0 (cos t).

Definition RotZ (t : R) : mat3 :=
  Mat3 (cos t) (- sin t) 0
       (sin t) (cos t) 0
       0 0 1.

(** Orthonormal columns and determinant +1. *)
Definition rigid3 (a : mat3) : Prop :=
  mmul3 (transpose3 a) a = I3 /\ det3 a = 1.

(* ================================================================== *)
(** ** Python values *)

(** The values that reach the functions of the program.  A numpy array is
    its shape together with its entries in row-major order. *)
#[warnings="-register-all"]
Inductive pyobj : Type :=
| PyNone
| PyEllipsis
| PyBool (b : bool)
| PyInt (n : Z)
| PyFloat (x : R)
| PyStr (s : string)
| PyList (items : list pyobj)
| PyTuple (items : list pyobj)
| PyDict (entries : list (string * pyobj))
| PyNdarray (shape : list nat) (data : list R).

(** [l[i]] on a Python list: a negative index counts from the end, and an
    index outside [-len, len) raises IndexError. *)
Definition list_getitem {A : Type} (l : list A) (i : Z) : result A :=
  let n := Z.of_nat (List.length l) in
  let j := if (i <? 0)%Z then (i + n)%Z else i in
  if ((0 <=? j)%Z && (j <? n)%Z)%bool
  then match nth_error l (Z.to_nat j) with
       | Some x => Ok x
       | None => Raise IndexError
       end
  else Raise IndexError.

(* ================================================================== *)
(** ** The part of numpy the program uses *)

Module np.

Definition of_mat4 (a : mat4) : pyobj :=
  PyNdarray [4; 4]%nat
    [ m00 a; m01 a; m02 a; m03 a;
      m10 a; m11 a; m12 a; m13 a;
      m20 a; m21 a; m22 a; m23 a;
      m30 a; m31 a; m32 a; m33 a ].

Definition of_mat3 (a : mat3) : pyobj :=
  PyNdarray [3; 3]%nat
    [ r00 a; r01 a; r02 a;
      r10 a; r11 a; r12 a;
      r20 a; r21 a; r22 a ].

(** Reading a value back as a (4,4) array. *)
Definition to_mat4 (v : pyobj) : option mat4 :=
  match v with
  | PyNdarray [4; 4]%nat
      [ a00; a01; a02; a03; a10; a11; a12; a13;
        a20; a21; a22; a23; a30; a31; a32; a33 ] =>
      Some (Mat4 a00 a01 a02 a03 a10 a11 a12 a13
                 a20 a21 a22 a23 a30 a31 a32 a33)
  | _ => None
  end.

(** [np.eye(4)] *)
Definition eye4 : pyobj := of_mat4 I4.

Definition entry (d : list R) (i : nat) : R := nth i d 0.

Definition dot (k : nat) (f g : nat -> R) : R :=
  fold_right (fun l acc => f l * g l + acc) 0 (seq 0 k).

(** Entries of the product of an (n,k) array and a (k,m) array. *)
Definition matmul_2d (n k m : nat) (da db : list R) : list R :=
  flat_map
    (fun i =>
       map (fun j =>
              dot k (fun l => entry da (i * k + l))
                    (fun l => entry db (l * m + j)))
           (seq 0 m))
    (seq 0 n).

(** The operator [a @ b].  Covered: operands that are arrays of one or two
    dimensions (a one-dimensional operand is treated as a row, respectively
    a column, and that axis is dropped from the result); a mismatch of the
    inner dimensions raises ValueError.  When only one operand is an array,
    numpy turns the other one (None, Ellipsis, a number) into a
    0-dimensional array and raises ValueError; when neither is an array,
    Python finds no implementation of [@] and raises TypeError.  Stacks of
    matrices and list operands do not occur in the program; they fall in
    the ValueError branch. *)
Definition matmul (a b : pyobj) : result pyobj :=
  match a, b with
  | PyNdarray [n; k]%nat da, PyNdarray [k'; m]%nat db =>
      if Nat.eqb k k'
      then Ok (PyNdarray [n; m]%nat (matmul_2d n k m da db))
      else Raise ValueError
  | PyNdarray [k]%nat da, PyNdarray [k'; m]%nat db =>
      if Nat.eqb k k'
      then Ok (PyNdarray [m]%nat (matmul_2d 1 k m da db))
      else Raise ValueError
  | PyNdarray [n; k]%nat da, PyNdarray [k']%nat db =>
      if Nat.eqb k k'
      then Ok (PyNdarray [n]%nat (matmul_2d n k 1 da db))
      else Raise ValueError
  | PyNdarray [k]%nat da, PyNdarray [k']%nat db =>
      if Nat.eqb k k'
      then Ok (PyFloat (dot k (entry da) (entry db)))
      else Raise ValueError
  | PyNdarray _ _, _ => Raise ValueError
  | _, PyNdarray _ _ => Raise ValueError
  | _, _ => Raise TypeError
  end.

End np.

Declare Scope np_scope.
Delimit Scope np_scope with np.
Notation "a @ b" := (np.matmul a b) (at level 40, left associativity) : np_scope.

(* ================================================================== *)
(** ** PyKDL: rotations and frames *)

(** PyKDL is an external library.  A [Rotation] is a 3x3 matrix, a [Frame] a
    rotation with a translation.  [DoRotX], [DoRotY] and [DoRotZ] multiply
    the rotation on the right by the elementary rotation about that axis. *)
Module kdl.

Definition Rotation : Type := mat3.

Record Frame : Type := mkFrame { M : Rotation; p : vec3 }.

(** [kdl.Rotation()] is the identity. *)
Definition Rotation_new : Rotation := I3.

Definition DoRotX (r : Rotation) (angle : R) : Rotation := mmul3 r (RotX angle).
Definition DoRotY (r : Rotation) (angle : R) : Rotation := mmul3 r (RotY angle).
Definition DoRotZ (r : Rotation) (angle : R) : Rotation := mmul3 r (RotZ angle).

Definition UnitX (r : Rotation) : vec3 := Vec3 (r00 r) (r10 r) (r20 r).
Definition UnitY (r : Rotation) : vec3 := Vec3 (r01 r) (r11 r) (r21 r).
Definition UnitZ (r : Rotation) : vec3 := Vec3 (r02 r) (r12 r) (r22 r).

End kdl.

(* ================================================================== *)
(** ** general_utility.py *)

Module general.

(** [check_proper_numpy_format(value, shape)]: a boolean, never an
    exception. *)
Definition check_proper_numpy_format (value : pyobj) (shape : list nat) : bool :=
  match value with
  | PyNdarray s _ =>
      if list_eq_dec Nat.eq_dec s shape then true else false
  | _ => false
  end.

(** [np_frame_to_kdl(np_frame)]: the one caller that acts on the check. *)
Definition np_frame_to_kdl (np_frame : pyobj) : result kdl.Frame :=
  if negb (check_proper_numpy_format np_frame [4; 4]%nat)
  then Raise TypeError
  else
    match np_frame with
    | PyNdarray _ d =>
        let at_ (i j : nat) := np.entry d (i * 4 + j) in
        Ok (kdl.mkFrame
              (Mat3 (at_ 0 0) (at_ 0 1) (at_ 0 2)
                    (at_ 1 0) (at_ 1 1) (at_ 1 2)
                    (at_ 2 0) (at_ 2 1) (at_ 2 2))%nat
              (Vec3 (at_ 0 3) (at_ 1 3) (at_ 2 3))%nat)
    | _ => Raise TypeError
    end.

(** [kdl_rotation_to_np(rotation)]: the columns of the array are the unit
    vectors of the rotation.  The argument is typed, so the isinstance
    guard always passes. *)
Definition kdl_rotation_to_np (rotation : kdl.Rotation) : mat3 :=
  let x := kdl.UnitX rotation in
  let y := kdl.UnitY rotation in
  let z := kdl.UnitZ rotation in
  Mat3 (vx x) (vx y) (vx z)
       (vy x) (vy y) (vy z)
       (vz x) (vz y) (vz z).

(** [kdl_frame_to_np(frame)]: [np.eye(4)] with the rotation written in
    [0:3, 0:3] and the translation in [:3, 3]. *)
Definition kdl_frame_to_np (frame : kdl.Frame) : pyobj :=
  let r := kdl_rotation_to_np (kdl.M frame) in
  let t := kdl.p frame in
  np.of_mat4
    (Mat4 (r00 r) (r01 r) (r02 r) (vx t)
          (r10 r) (r11 r) (r12 r) (vy t)
          (r20 r) (r21 r) (r22 r) (vz t)
          0 0 0 1).

(** [get_data_from_yaml(filepath)]: the file system together with
    [yaml.safe_load] is a function from paths to the parsed document, or
    to the exception raised on the way. *)
Definition filesystem : Type := string -> result pyobj.

Definition get_data_from_yaml (fs : filesystem) (filepath : string) : result pyobj :=
  fs filepath.

End general.

(* ================================================================== *)
(** ** Methods: state passing with exceptions *)

(** A method of an object with state [S]: it returns a value or raises, and
    in both cases leaves the (possibly updated) object behind. *)
Definition method (S A : Type) : Type := S -> result A * S.

Definition mbind {S A B : Type} (m : method S A) (k : A -> method S B) : method S B :=
  fun s =>
    match m s with
    | (Ok a, s') => k a s'
    | (Raise e, s') => (Raise e, s')
    end.

Notation "x <~ m ;; k" := (mbind m (fun x => k))
  (at level 61, m at next level, right associativity) : py_scope.
Notation "m ;;; k" := (mbind m (fun _ => k))
  (at level 61, right associativity) : py_scope.

Local Open Scope py_scope.

(* ================================================================== *)
(** ** robot_components.py: class Joint *)

Module Joint.

(** [_frame_drawing] stands for the artist of [drawing_helper]: it is
    modelled by the frame it was last given ([None] before the first
    update).  Drawing itself returns nothing. *)
Record t : Type := mk {
  _joint_limit : R * R;
  _drawn_once : bool;
  _dh_transform : pyobj;
  _final_transform : pyobj;
  _frame_drawing : pyobj }.

(** [Joint(ax, color)] *)
Definition __init__ : t :=
  mk (0, 0) false np.eye4 np.eye4 PyNone.

Definition low_limit (self : t) : R := fst (_joint_limit self).
Definition high_limit (self : t) : R := snd (_joint_limit self).
Definition dh_transform (self : t) : pyobj := _dh_transform self.
Definition final_transform (self : t) : pyobj := _final_transform self.

Definition set_joint_limits (low_limit high_limit : R) : method t unit :=
  fun self =>
    (Ok tt, mk (low_limit, high_limit) (_drawn_once self) (_dh_transform self)
               (_final_transform self) (_frame_drawing self)).

Definition _update_drawing : method t unit :=
  fun self =>
    (Ok tt, mk (_joint_limit self) (_drawn_once self) (_dh_transform self)
               (_final_transform self) (_final_transform self)).

(** The value of the shape check is dropped: the statement is the bare
    call. *)
Definition set_dh_transform (transform : pyobj) : method t unit :=
  fun self =>
    let _ := general.check_proper_numpy_format transform [4; 4]%nat in
    let self := mk (_joint_limit self) (_drawn_once self) transform
                   (_final_transform self) (_frame_drawing self) in
    _update_drawing self.

Definition set_final_transform (transform : pyobj) : method t unit :=
  fun self =>
    let _ := general.check_proper_numpy_format transform [4; 4]%nat in
    (Ok tt, mk (_joint_limit self) (_drawn_once self) (_dh_transform self)
               transform (_frame_drawing self)).

Definition draw : method t unit :=
  _update_drawing ;;;
  fun self =>
    (Ok tt, mk (_joint_limit self) true (_dh_transform self)
               (_final_transform self) (_frame_drawing self)).

(** [not low <= x <= high] gives False, anything else True. *)
Definition is_inside_joint_limit (self : t) (input_angle : R) : bool :=
  if Rle_dec (low_limit self) input_angle
  then if Rle_dec input_angle (high_limit self) then true else false
  else false.

End Joint.

(* ================================================================== *)
(** ** robot_components.py: class Brush *)

Module Brush.

Record t : Type := mk {
  _colors : list (list R);
  _drawn_once : bool;
  _selection : Z;
  _tool_base_frame : pyobj;
  l_t_rad : R;
  l_t : R;
  _previously_selected_brush_frame : Z;
  _tool_relative_frames : list pyobj;
  _brush_frames : list pyobj }.

Definition with_selection (self : t) (n : Z) : t :=
  mk (_colors self) (_drawn_once self) n (_tool_base_frame self)
     (l_t_rad self) (l_t self) (_previously_selected_brush_frame self)
     (_tool_relative_frames self) (_brush_frames self).

Definition with_previously_selected (self : t) (n : Z) : t :=
  mk (_colors self) (_drawn_once self) (_selection self) (_tool_base_frame self)
     (l_t_rad self) (l_t self) n
     (_tool_relative_frames self) (_brush_frames self).

(** [isinstance(v, int)]: ints and, bool being a subclass of int, the two
    booleans.  The integer the object denotes is what every later use
    (comparison, subtraction, indexing) sees. *)
Definition isinstance_int (v : pyobj) : option Z :=
  match v with
  | PyInt n => Some n
  | PyBool b => Some (if b then 1 else 0)%Z
  | _ => None
  end.

(** The getter and the setter of the property [selection]. *)
Definition selection (self : t) : Z := _selection self.

Definition selection_setter (selection : pyobj) : method t unit :=
  fun self =>
    match isinstance_int selection with
    | None => (Raise TypeError, self)
    | Some n =>
        if (n >? Z.of_nat (List.length (_colors self)))%Z
        then (Raise ValueError, self)
        else (Ok tt, with_selection self n)
    end.

Definition color (self : t) : result (list R) :=
  list_getitem (_colors self) (_selection self).

Definition selected_brush_frame (self : t) : result pyobj :=
  if (_selection self =? 0)%Z
  then Ok np.eye4
  else list_getitem (_brush_frames self) (_selection self - 1)%Z.

Definition selected_brush_frame_dh : method t pyobj :=
  fun self =>
    if (_selection self =? 0)%Z
    then (list_getitem (_tool_relative_frames self)
                       (_previously_selected_brush_frame self), self)
    else
      let self := with_previously_selected self (_selection self) in
      (list_getitem (_tool_relative_frames self) (_selection self - 1)%Z, self).

Definition selected_color (self : t) : result (list R) :=
  if (_selection self =? 0)%Z
  then Ok [0; 0; 0]
  else list_getitem (_colors self) (_selection self - 1)%Z.

Section Construction.

(** [general.yawT] and [general.pitchT] are called by [_make_tool_frame]
    but are not defined in [general_utility.py]: they are parameters. *)
Variables yawT pitchT : R -> pyobj.

Definition _make_tool_frame (rotation translation : vec3) : result pyobj :=
  let tool_frame := np.eye4 in
  let trans_x := np.of_mat4 (Mat4 1 0 0 (vx translation)  0 1 0 0  0 0 1 0  0 0 0 1) in
  let trans_z := np.of_mat4 (Mat4 1 0 0 0  0 1 0 0  0 0 1 (vz translation)  0 0 0 1) in
  tool_frame <- (tool_frame @ yawT (vz rotation))%np ;;
  tool_frame <- (tool_frame @ trans_x)%np ;;
  tool_frame <- (tool_frame @ pitchT (vy rotation))%np ;;
  (tool_frame @ trans_z)%np.

Definition _create_tool_relative_frames (l_t_rad l_t : R) : result (list pyobj) :=
  f1 <- _make_tool_frame (Vec3 0 (- PI / 4) (5 * PI / 4)) (Vec3 (- l_t_rad) 0 l_t) ;;
  f2 <- _make_tool_frame (Vec3 0 (- PI / 4) (7 * PI / 4)) (Vec3 (- l_t_rad) 0 l_t) ;;
  f3 <- _make_tool_frame (Vec3 0 (- PI / 4) (PI / 4)) (Vec3 (- l_t_rad) 0 l_t) ;;
  f4 <- _make_tool_frame (Vec3 0 (- PI / 4) (3 * PI / 4)) (Vec3 (- l_t_rad) 0 l_t) ;;
  Ok [f1; f2; f3; f4].

(** [Brush(ax)] *)
Definition __init__ : result t :=
  frames <- _create_tool_relative_frames 50 300 ;;
  Ok (mk [ [0.4940; 0.1840; 0.5560]; [0.9290; 0.6940; 0.1250];
           [0.8500; 0.3250; 0.0980]; [0; 0.4470; 0.7410] ]
         false 0%Z np.eye4 50 300 1%Z frames
         [np.eye4; np.eye4; np.eye4; np.eye4]).

End Construction.

End Brush.

(* ================================================================== *)
(** ** fanuc.py *)

(** [dh_tf(alpha, a, d, theta)]: the body is the bare [return], so the call
    evaluates to None. *)
Definition dh_tf (alpha a d theta : R) : pyobj := PyNone.

(** [make_frame(rotation, translation)]: rotations about Z, then Y, then X
    applied to the identity, combined with the translation. *)
Definition make_frame (rotation translation : vec3) : pyobj :=
  let rot_mat := kdl.Rotation_new in
  let rot_mat := kdl.DoRotZ rot_mat (vz rotation) in
  let rot_mat := kdl.DoRotY rot_mat (vy rotation) in
  let rot_mat := kdl.DoRotX rot_mat (vx rotation) in
  let frame := kdl.mkFrame rot_mat translation in
  general.kdl_frame_to_np frame.

Module Fanuc.

(** The constructor of the class stops at its placeholders (link lengths,
    workspace bounds and joint limits are written [...]), so no object
    comes out of it.  The methods are embedded over an arbitrary object
    whose joint attributes hold [Joint] instances, as their annotations
    say.  [Link] objects and the matplotlib figure only render and are
    left out. *)
Record t : Type := mk {
  _drawn_once : bool;
  brush : Brush.t;
  _base_frame : Joint.t;
  _zero_frame : Joint.t;
  _joint_1 : Joint.t;
  _joint_2 : Joint.t;
  _joint_3 : Joint.t;
  _joint_4 : Joint.t;
  _joint_5 : Joint.t;
  _joint_6 : Joint.t }.

Definition joints (self : t) : list Joint.t :=
  [ _joint_1 self; _joint_2 self; _joint_3 self;
    _joint_4 self; _joint_5 self; _joint_6 self ].

(** The property [ee_frame]: the six stored joint transforms, multiplied
    from the left. *)
Definition ee_frame (self : t) : result pyobj :=
  x <- (Joint.dh_transform (_joint_1 self) @ Joint.dh_transform (_joint_2 self))%np ;;
  x <- (x @ Joint.dh_transform (_joint_3 self))%np ;;
  x <- (x @ Joint.dh_transform (_joint_4 self))%np ;;
  x <- (x @ Joint.dh_transform (_joint_5 self))%np ;;
  (x @ Joint.dh_transform (_joint_6 self))%np.

Definition with_joint_1 (self : t) (j : Joint.t) : t :=
  mk (_drawn_once self) (brush self) (_base_frame self) (_zero_frame self)
     j (_joint_2 self) (_joint_3 self) (_joint_4 self) (_joint_5 self)
     (_joint_6 self).

Definition with_drawn_once (self : t) (b : bool) : t :=
  mk b (brush self) (_base_frame self) (_zero_frame self)
     (_joint_1 self) (_joint_2 self) (_joint_3 self) (_joint_4 self)
     (_joint_5 self) (_joint_6 self).

Definition with_frames (self : t) (base zero : Joint.t) : t :=
  mk (_drawn_once self) (brush self) base zero
     (_joint_1 self) (_joint_2 self) (_joint_3 self) (_joint_4 self)
     (_joint_5 self) (_joint_6 self).

Definition with_brush (self : t) (b : Brush.t) : t :=
  mk (_drawn_once self) b (_base_frame self) (_zero_frame self)
     (_joint_1 self) (_joint_2 self) (_joint_3 self) (_joint_4 self)
     (_joint_5 self) (_joint_6 self).

(** Writing the six joint objects back after a loop over [self.joints]. *)
Definition with_joints (self : t) (js : list Joint.t) : t :=
  match js with
  | [j1; j2; j3; j4; j5; j6] =>
      mk (_drawn_once self) (brush self) (_base_frame self) (_zero_frame self)
         j1 j2 j3 j4 j5 j6
  | _ => self
  end.

(** [calculate_fk(joint_angles)]: the body is
    [self._joint_1.set_dh_transform(...)] followed by [...]; the argument
    of the setter is the Ellipsis object and [joint_angles] is not read. *)
Definition calculate_fk (joint_angles : pyobj) : method t unit :=
  fun self =>
    let (r, j1) := Joint.set_dh_transform PyEllipsis (_joint_1 self) in
    (r, with_joint_1 self j1).

(** [calculate_ik(ee_frame, prev_joint_angles)]: [return False, []]. *)
Definition calculate_ik (self : t) (ee_frame prev_joint_angles : pyobj)
  : bool * pyobj :=
  (false, PyList []).

(** [get_ee_pose_from_brush(rotation, brush_pose)]: two shape checks whose
    values are dropped, then [return ...]. *)
Definition get_ee_pose_from_brush (self : t) (rotation brush_pose : pyobj)
  : pyobj :=
  let _ := general.check_proper_numpy_format rotation [3; 3]%nat in
  let _ := general.check_proper_numpy_format brush_pose [3]%nat in
  PyEllipsis.

(** [draw_fanuc_path(starting_angles, path)]: the file is loaded and the
    function ends; a function that ends without [return] gives None. *)
Definition draw_fanuc_path (fs : general.filesystem)
           (starting_angles : pyobj) (path : string) : method t pyobj :=
  fun self =>
    match general.get_data_from_yaml fs path with
    | Raise e => (Raise e, self)
    | Ok data => (Ok PyNone, self)
    end.

Definition initialize_fanuc_drawing (joint_angles : pyobj) : method t unit :=
  calculate_fk joint_angles.

(** The loop of [draw_fanuc] over [enumerate(self.joints)]. *)
Fixpoint draw_joints (current_transform : pyobj) (js : list Joint.t)
  : result pyobj * list Joint.t :=
  match js with
  | [] => (Ok current_transform, [])
  | joint :: rest =>
      match (current_transform @ Joint.dh_transform joint)%np with
      | Raise e => (Raise e, joint :: rest)
      | Ok current_transform =>
          let joint := snd ((Joint.set_final_transform current_transform ;;;
                             Joint.draw) joint) in
          let (r, rest) := draw_joints current_transform rest in
          (r, joint :: rest)
      end
  end.

Section Drawing.

(** The last three calls of [draw_fanuc] hand the final transform to the
    brush and render it ([update_tool_frame], [show_enabled], [paint]);
    they are an arbitrary step on the brush. *)
Variable paint_brush : pyobj -> method Brush.t unit.

Definition draw_fanuc (joint_angles : pyobj) : method t unit :=
  let _ := general.check_proper_numpy_format joint_angles [6]%nat in
  calculate_fk joint_angles ;;;
  (fun self =>
     if negb (_drawn_once self)
     then (initialize_fanuc_drawing joint_angles ;;;
           fun self => (Ok tt, with_drawn_once self true)) self
     else (Ok tt, self)) ;;;
  (fun self =>
     let base := snd (Joint.draw (_base_frame self)) in
     let zero := snd (Joint.draw (_zero_frame self)) in
     (Ok tt, with_frames self base zero)) ;;;
  current_transform <~
    (fun self =>
       let (r, js) := draw_joints (Joint.dh_transform (_base_frame self))
                                  (joints self) in
       (r, with_joints self js)) ;;
  (fun self =>
     let (r, b) := paint_brush current_transform (brush self) in
     (r, with_brush self b)).

End Drawing.

End Fanuc.

(* ================================================================== *)
(** ** Notions the documentation names *)

(** The homogeneous frame with rotation [r] and translation [t]. *)
Definition frame4 (r : mat3) (t : vec3) : mat4 :=
  Mat4 (r00 r) (r01 r) (r02 r) (vx t)
       (r10 r) (r11 r) (r12 r) (vy t)
       (r20 r) (r21 r) (r22 r) (vz t)
       0 0 0 1.

(** The Denavit-Hartenberg product RotZ(theta) TransZ(d) TransX(a)
    RotX(alpha) that [dh_tf] is documented to return.  It follows the
    documentation, not the body of [dh_tf]. *)
Definition DH_product (alpha a d theta : R) : mat4 :=
  mmul4 (mmul4 (mmul4 (frame4 (RotZ theta) (Vec3 0 0 0))
                      (frame4 I3 (Vec3 0 0 d)))
               (frame4 I3 (Vec3 a 0 0)))
        (frame4 (RotX alpha) (Vec3 0 0 0)).

(** A value is a (4,4) array whose rotation block is rigid. *)
Definition has_rigid_rotation (v : pyobj) : Prop :=
  exists m, np.to_mat4 v = Some m /\ rigid3 (rotation_block m).

(** Ordered product of a list of frames. *)
Definition mprod (ms : list mat4) : mat4 := fold_right mmul4 I4 ms.

(* ================================================================== *)
(** ** Objects used in the examples *)

(** The usual yaw and pitch frames: one possible reading of the two missing
    helpers of [general_utility.py]. *)
Definition yawT_std (t : R) : pyobj := np.of_mat4 (frame4 (RotZ t) (Vec3 0 0 0)).
Definition pitchT_std (t : R) : pyobj := np.of_mat4 (frame4 (RotY t) (Vec3 0 0 0)).

Definition tool_frame_std (yaw : R) : mat4 :=
  mmul4 (mmul4 (mmul4 (mmul4 I4 (frame4 (RotZ yaw) (Vec3 0 0 0)))
                      (Mat4 1 0 0 (- 50)  0 1 0 0  0 0 1 0  0 0 0 1))
               (frame4 (RotY (- PI / 4)) (Vec3 0 0 0)))
        (Mat4 1 0 0 0  0 1 0 0  0 0 1 300  0 0 0 1).

(** The brush as its constructor leaves it, under that reading. *)
Definition example_brush : Brush.t :=
  Brush.mk
    [ [0.4940; 0.1840; 0.5560]; [0.9290; 0.6940; 0.1250];
      [0.8500; 0.3250; 0.0980]; [0; 0.4470; 0.7410] ]
    false 0%Z np.eye4 50 300 1%Z
    [ np.of_mat4 (tool_frame_std (5 * PI / 4));
      np.of_mat4 (tool_frame_std (7 * PI / 4));
      np.of_mat4 (tool_frame_std (PI / 4));
      np.of_mat4 (tool_frame_std (3 * PI / 4)) ]
    [np.eye4; np.eye4; np.eye4; np.eye4].

(** A joint whose stored transforms are both [frame]. *)
Definition joint_at (frame : pyobj) : Joint.t :=
  snd ((Joint.set_final_transform frame ;;; Joint.set_dh_transform frame)
         Joint.__init__).

(** A robot with a mount height of 1 mm and six fresh joints. *)
Definition example_robot : Fanuc.t :=
  Fanuc.mk false example_brush
    (joint_at (make_frame (Vec3 0 0 0) (Vec3 0 0 1)))
    (joint_at np.eye4)
    Joint.__init__ Joint.__init__ Joint.__init__
    Joint.__init__ Joint.__init__ Joint.__init__.

(** The matrix of its base-mount frame, as [make_frame] computes it. *)
Definition example_mount : mat4 :=
  frame4 (mmul3 (mmul3 (mmul3 I3 (RotZ 0)) (RotY 0)) (RotX 0)) (Vec3 0 0 1).

(** [np.zeros(6)] *)
Definition zeros6 : pyobj := PyNdarray [6%nat] [0; 0; 0; 0; 0; 0].

(** Malformed arguments: a (3,3) array where a frame is expected, a vector
    of five angles where six are expected. *)
Definition eye3 : pyobj := np.of_mat3 I3.
Definition zeros5 : pyobj := PyNdarray [5%nat] [0; 0; 0; 0; 0].

(** A path file with three waypoints, the second one a kilometre away. *)
Definition waypoint (color : Z) (x y z : R) : pyobj :=
  PyDict [ ("color"%string, PyInt color); ("x"%string, PyFloat x);
           ("y"%string, PyFloat y); ("z"%string, PyFloat z) ].

Definition three_waypoints : pyobj :=
  PyList [ waypoint 1 500 0 500; waypoint 1 1000000 0 500; waypoint 1 500 100 500 ].

Definition example_fs : general.filesystem :=
  fun path =>
    if String.eqb path "prism.yaml" then Ok three_waypoints else Raise OSError.

(** What the path executor of the specification hands back on an abort: the
    trajectory so far, the failing index, then the reason. *)
Definition aborted_at (v : pyobj) (trajectory_length : nat) (index : Z) : Prop :=
  exists trajectory rest,
    v = PyTuple (PyList trajectory :: PyInt index :: rest) /\
    List.length trajectory = trajectory_length.

(** Selecting a tool and reading its relative frame, as a caller does. *)
Definition select_and_read (id : Z) : method Brush.t pyobj :=
  Brush.selection_setter (PyInt id) ;;; Brush.selected_brush_frame_dh.

(* ================================================================== *)
(** ** robot_components.py: the drawing methods of Brush *)

Definition mret {S A : Type} (a : A) : method S A := fun s => (Ok a, s).

(** [l[index] = x] for an index that is not negative. *)
Fixpoint list_setitem {A : Type} (l : list A) (index : nat) (x : A)
  : result (list A) :=
  match l, index with
  | [], _ => Raise IndexError
  | _ :: rest, O => Ok (x :: rest)
  | y :: rest, S index' => rest' <- list_setitem rest index' x ;; Ok (y :: rest')
  end.

(** [a[i, j]] on a numpy array with two literal indices that are not
    negative.  Covered: arrays of at most two dimensions (fewer than two
    dimensions, or an index past the end, is an IndexError; the scalar a
    product of two vectors gives is a numpy scalar and raises IndexError
    too) and values that cannot be indexed by a pair (TypeError). *)
Definition ndarray_item (a : pyobj) (i j : nat) : result R :=
  match a with
  | PyNdarray [n; m]%nat d =>
      if (Nat.ltb i n && Nat.ltb j m)%bool
      then Ok (np.entry d (i * m + j))
      else Raise IndexError
  | PyNdarray _ _ => Raise IndexError
  | PyFloat _ => Raise IndexError
  | _ => Raise TypeError
  end.

Module BrushDrawing.

(** The artists of the tools ([LinkDrawing] of [drawing_helper], one per
    colour) and the axes belong to the renderer.  An artist is modelled by
    the two frames it was last given, the axes by the points plotted on
    them; their methods return nothing. *)
Record LinkDrawing : Type := mkLine { frame_1 : pyobj; frame_2 : pyobj }.

Record spot : Type := mkSpot {
  spot_x : R; spot_y : R; spot_z : R; spot_color : list R }.

Record t : Type := mk {
  brush : Brush.t;
  _tool_lines : list LinkDrawing;
  _ax : list spot }.

Definition with_tool_base_frame (b : Brush.t) (frame : pyobj) : Brush.t :=
  Brush.mk (Brush._colors b) (Brush._drawn_once b) (Brush._selection b) frame
           (Brush.l_t_rad b) (Brush.l_t b) (Brush._previously_selected_brush_frame b)
           (Brush._tool_relative_frames b) (Brush._brush_frames b).

Definition with_brush_frames (b : Brush.t) (frames : list pyobj) : Brush.t :=
  Brush.mk (Brush._colors b) (Brush._drawn_once b) (Brush._selection b)
           (Brush._tool_base_frame b)
           (Brush.l_t_rad b) (Brush.l_t b) (Brush._previously_selected_brush_frame b)
           (Brush._tool_relative_frames b) frames.

Definition with_drawn_once (b : Brush.t) (drawn : bool) : Brush.t :=
  Brush.mk (Brush._colors b) drawn (Brush._selection b)
           (Brush._tool_base_frame b)
           (Brush.l_t_rad b) (Brush.l_t b) (Brush._previously_selected_brush_frame b)
           (Brush._tool_relative_frames b) (Brush._brush_frames b).

(** [self._tool_lines[index].update_frames(frame_1, frame_2)]: the artist
    is looked up first, then the two arguments are evaluated. *)
Definition tool_line_update_frames (index : nat) (frame_1 frame_2 : t -> result pyobj)
  : method t unit :=
  fun self =>
    match (_ <- list_getitem (_tool_lines self) (Z.of_nat index) ;;
           f1 <- frame_1 self ;;
           f2 <- frame_2 self ;;
           list_setitem (_tool_lines self) index (mkLine f1 f2)) with
    | Ok lines => (Ok tt, mk (brush self) lines (_ax self))
    | Raise e => (Raise e, self)
    end.

Definition tool_base_frame (self : t) : result pyobj :=
  Ok (Brush._tool_base_frame (brush self)).

Definition brush_frame_at (index : nat) (self : t) : result pyobj :=
  list_getitem (Brush._brush_frames (brush self)) (Z.of_nat index).

Section WithNumpy.

(** [np.allclose]: it answers with a boolean or raises. *)
Variable allclose : pyobj -> pyobj -> result bool.

(** The body of the loop of [_update_tool_frames]. *)
Definition update_one (enable_all : bool) (index : nat) (frame : pyobj)
  : method t unit :=
  fun self =>
    match (new_frame <- (Brush._tool_base_frame (brush self) @ frame)%np ;;
           list_setitem (Brush._brush_frames (brush self)) index new_frame) with
    | Raise e => (Raise e, self)
    | Ok frames =>
        let self := mk (with_brush_frames (brush self) frames)
                       (_tool_lines self) (_ax self) in
        if enable_all
        then tool_line_update_frames index tool_base_frame (brush_frame_at index) self
        else
          match (selected <- Brush.selected_brush_frame (brush self) ;;
                 current <- brush_frame_at index self ;;
                 allclose selected current) with
          | Raise e => (Raise e, self)
          | Ok true =>
              tool_line_update_frames index tool_base_frame (brush_frame_at index) self
          | Ok false =>
              tool_line_update_frames index tool_base_frame tool_base_frame self
          end
    end.

Fixpoint update_loop (enable_all : bool) (index : nat) (frames : list pyobj)
  : method t unit :=
  match frames with
  | [] => mret tt
  | frame :: rest =>
      update_one enable_all index frame ;;; update_loop enable_all (S index) rest
  end.

Definition _update_tool_frames (enable_all : bool) : method t unit :=
  fun self =>
    update_loop enable_all 0 (Brush._tool_relative_frames (brush self)) self.

(** The value of the shape check is dropped here as well. *)
Definition update_tool_frame (frame : pyobj) : method t unit :=
  fun self =>
    let _ := general.check_proper_numpy_format frame [4; 4]%nat in
    let self := mk (with_tool_base_frame (brush self) frame)
                   (_tool_lines self) (_ax self) in
    _update_tool_frames false self.

Definition _draw (enable_all : bool) : method t unit :=
  (fun self =>
     if negb (Brush._drawn_once (brush self))
     then (_update_tool_frames true ;;;
           fun self => (Ok tt, mk (with_drawn_once (brush self) true)
                                  (_tool_lines self) (_ax self))) self
     else (Ok tt, self)) ;;;
  _update_tool_frames enable_all.

Definition show_all : method t unit := _draw true.

Definition show_enabled : method t unit := _draw false.

(** [self._ax.plot([x], [y], [z], ".b", color=..., markersize=10)]: the
    three coordinates are read from the selected brush frame, then the
    colour. *)
Definition paint : method t unit :=
  _draw true ;;;
  fun self =>
    if negb (Brush._selection (brush self) =? 0)%Z
    then
      match (x <- (f <- Brush.selected_brush_frame (brush self) ;; ndarray_item f 0 3) ;;
             y <- (f <- Brush.selected_brush_frame (brush self) ;; ndarray_item f 1 3) ;;
             z <- (f <- Brush.selected_brush_frame (brush self) ;; ndarray_item f 2 3) ;;
             c <- Brush.selected_color (brush self) ;;
             Ok (mkSpot x y z c)) with
      | Ok s => (Ok tt, mk (brush self) (_tool_lines self) (_ax self ++ [s]))
      | Raise e => (Raise e, self)
      end
    else (Ok tt, self).

End WithNumpy.

End BrushDrawing.

(* ================================================================== *)
(** ** Notions used beyond the documented claims *)

(** Running products of a chain of frames: [c m1], [c m1 m2], ... *)
Fixpoint running_products (c : mat4) (ms : list mat4) : list mat4 :=
  match ms with
  | [] => []
  | m :: rest => mmul4 c m :: running_products (mmul4 c m) rest
  end.

(** A brush whose three lists have the four entries the constructor gives
    them. *)
Definition brush_wf (b : Brush.t) : Prop :=
  List.length (Brush._colors b) = 4%nat /\
  List.length (Brush._tool_relative_frames b) = 4%nat /\
  List.length (Brush._brush_frames b) = 4%nat.

(** The tool-tip frames: the base frame times each relative frame, and the
    artists that show them. *)
Definition tool_tips (F : mat4) (rs : list mat4) : list pyobj :=
  map (fun r => np.of_mat4 (mmul4 F r)) rs.

Definition tool_lines_shown (F : mat4) (rs : list mat4)
  : list BrushDrawing.LinkDrawing :=
  map (fun r => BrushDrawing.mkLine (np.of_mat4 F) (np.of_mat4 (mmul4 F r))) rs.

(** [np.allclose] on two arrays of the same shape, with the tolerances
    numpy uses when none is given (rtol = 1e-5, atol = 1e-8); the instance
    of the parameter used in the examples. *)
Definition isclose (a b : R) : bool :=
  if Rle_dec (Rabs (a - b)) (1e-8 + 1e-5 * Rabs b) then true else false.

Fixpoint all_isclose (da db : list R) : bool :=
  match da, db with
  | a :: ra, b :: rb => isclose a b && all_isclose ra rb
  | _, _ => true
  end.

Definition allclose_same_shape (a b : pyobj) : result bool :=
  match a, b with
  | PyNdarray sa da, PyNdarray sb db =>
      if list_eq_dec Nat.eq_dec sa sb
      then Ok (all_isclose da db)
      else Raise ValueError
  | _, _ => Raise TypeError
  end.

(** The brush with its four artists and empty axes, tool 2 selected. *)
Definition example_view : BrushDrawing.t :=
  BrushDrawing.mk (Brush.with_selection example_brush 2)
    [ BrushDrawing.mkLine PyNone PyNone; BrushDrawing.mkLine PyNone PyNone;
      BrushDrawing.mkLine PyNone PyNone; BrushDrawing.mkLine PyNone PyNone ]
    [].

(* ================================================================== *)
(** * Properties *)

(** ** Matrix algebra *)

Lemma Mat3_ext (a b : mat3) :
  r00 a = r00 b -> r01 a = r01 b -> r02 a = r02 b ->
  r10 a = r10 b -> r11 a = r11 b -> r12 a = r12 b ->
  r20 a = r20 b -> r21 a = r21 b -> r22 a = r22 b ->
  a = b.
Proof.
  destruct a as [a00 a01 a02 a10 a11 a12 a20 a21 a22].
  destruct b as [b00 b01 b02 b10 b11 b12 b20 b21 b22].
  simpl. intros. subst. reflexivity.
Qed.

Lemma Mat4_ext (a b : mat4) :
  m00 a = m00 b -> m01 a = m01 b -> m02 a = m02 b -> m03 a = m03 b ->
  m10 a = m10 b -> m11 a = m11 b -> m12 a = m12 b -> m13 a = m13 b ->
  m20 a = m20 b -> m21 a = m21 b -> m22 a = m22 b -> m23 a = m23 b ->
  m30 a = m30 b -> m31 a = m31 b -> m32 a = m32 b -> m33 a = m33 b ->
  a = b.
Proof.
  destruct a as [a00 a01 a02 a03 a10 a11 a12 a13 a20 a21 a22 a23 a30 a31 a32 a33].
  destruct b as [b00 b01 b02 b03 b10 b11 b12 b13 b20 b21 b22 b23 b30 b31 b32 b33].
  simpl. intros. subst. reflexivity.
Qed.

Ltac mat3_ring := apply Mat3_ext; simpl; ring.
Ltac mat4_ring := apply Mat4_ext; simpl; ring.

Lemma mmul4_assoc (a b c : mat4) : mmul4 (mmul4 a b) c = mmul4 a (mmul4 b c).
Proof. mat4_ring. Qed.

Lemma mmul4_I4_l (a : mat4) : mmul4 I4 a = a.
Proof. mat4_ring. Qed.

Lemma mmul4_I4_r (a : mat4) : mmul4 a I4 = a.
Proof. mat4_ring. Qed.

Lemma mmul3_assoc (a b c : mat3) : mmul3 (mmul3 a b) c = mmul3 a (mmul3 b c).
Proof. mat3_ring. Qed.

Lemma mmul3_I3_l (a : mat3) : mmul3 I3 a = a.
Proof. mat3_ring. Qed.

Lemma transpose3_mmul3 (a b : mat3) :
  transpose3 (mmul3 a b) = mmul3 (transpose3 b) (transpose3 a).
Proof. mat3_ring. Qed.

Lemma det3_mmul3 (a b : mat3) : det3 (mmul3 a b) = det3 a * det3 b.
Proof. unfold det3, mmul3; simpl; ring. Qed.

Lemma rigid3_I3 : rigid3 I3.
Proof. split; [mat3_ring | unfold det3, I3; simpl; ring]. Qed.

(** Rigid rotations are closed under products. *)
Lemma rigid3_mmul3 (a b : mat3) : rigid3 a -> rigid3 b -> rigid3 (mmul3 a b).
Proof.
  intros [Oa Da] [Ob Db]. split.
  - rewrite transpose3_mmul3, mmul3_assoc.
    rewrite <- (mmul3_assoc (transpose3 a) a b), Oa, mmul3_I3_l.
    exact Ob.
  - rewrite det3_mmul3, Da, Db. ring.
Qed.

Lemma sin_cos_square (t : R) : sin t * sin t + cos t * cos t = 1.
Proof. exact (sin2_cos2 t). Qed.

Ltac trig t :=
  pose proof (sin_cos_square t);
  split; [ apply Mat3_ext; simpl; nra | unfold det3; simpl; nra ].

Lemma rigid3_RotX (t : R) : rigid3 (RotX t).
Proof. unfold RotX; trig t. Qed.

Lemma rigid3_RotY (t : R) : rigid3 (RotY t).
Proof. unfold RotY; trig t. Qed.

Lemma rigid3_RotZ (t : R) : rigid3 (RotZ t).
Proof. unfold RotZ; trig t. Qed.

(** ** numpy on (4,4) arrays *)

Lemma to_mat4_of_mat4 (a : mat4) : np.to_mat4 (np.of_mat4 a) = Some a.
Proof. destruct a; reflexivity. Qed.

Lemma of_mat4_inj (a b : mat4) : np.of_mat4 a = np.of_mat4 b -> a = b.
Proof.
  intros H. apply (f_equal np.to_mat4) in H.
  rewrite !to_mat4_of_mat4 in H. now inversion H.
Qed.

Lemma matmul_mat4 (a b : mat4) :
  (np.of_mat4 a @ np.of_mat4 b)%np = Ok (np.of_mat4 (mmul4 a b)).
Proof.
  unfold np.matmul, np.of_mat4, np.matmul_2d, np.dot, np.entry.
  cbn [Nat.eqb flat_map map seq fold_right app nth Nat.mul Nat.add].
  unfold mmul4.
  cbn [m00 m01 m02 m03 m10 m11 m12 m13 m20 m21 m22 m23 m30 m31 m32 m33].
  do 2 f_equal.
  repeat (apply f_equal2; [ring | ]). reflexivity.
Qed.

(** A product with an operand that is not an array raises, and so does
    everything that is chained after it. *)
Lemma matmul_not_array_l (a b : pyobj) :
  (forall s d, a <> PyNdarray s d) -> raises (a @ b)%np.
Proof.
  intros H. destruct a as [ | | | | | | | | |s d];
    try (destruct b; eexists; reflexivity).
  now contradiction (H s d).
Qed.

Lemma matmul_not_array_r (a b : pyobj) :
  (forall s d, b <> PyNdarray s d) -> raises (a @ b)%np.
Proof.
  intros H. destruct b as [ | | | | | | | | |sb db];
    try (destruct a as [ | | | | | | | | |sa da];
         [ .. | destruct sa as [|? [|? [|? ?]]] ]; eexists; reflexivity).
  now contradiction (H sb db).
Qed.

Lemma matmul_Ellipsis_l (b : pyobj) : raises (PyEllipsis @ b)%np.
Proof. apply matmul_not_array_l. intros s d H. discriminate H. Qed.

Lemma matmul_Ellipsis_r (a : pyobj) : raises (a @ PyEllipsis)%np.
Proof. apply matmul_not_array_r. intros s d H. discriminate H. Qed.

Lemma raises_bind {A B : Type} (r : result A) (k : A -> result B) :
  raises r -> raises (bind r k).
Proof. intros [e ->]. now exists e. Qed.

(** ** Frames built through PyKDL *)

Lemma kdl_frame_to_np_frame4 (f : kdl.Frame) :
  general.kdl_frame_to_np f = np.of_mat4 (frame4 (kdl.M f) (kdl.p f)).
Proof. reflexivity. Qed.

Lemma rotation_block_frame4 (r : mat3) (t : vec3) : rotation_block (frame4 r t) = r.
Proof. apply Mat3_ext; reflexivity. Qed.

Lemma make_frame_frame4 (rotation translation : vec3) :
  make_frame rotation translation =
  np.of_mat4
    (frame4 (mmul3 (mmul3 (mmul3 I3 (RotZ (vz rotation))) (RotY (vy rotation)))
                   (RotX (vx rotation)))
            translation).
Proof. reflexivity. Qed.

Lemma make_frame_rigid (rotation translation : vec3) :
  has_rigid_rotation (make_frame rotation translation).
Proof.
  rewrite make_frame_frame4. eexists. split.
  - apply to_mat4_of_mat4.
  - rewrite rotation_block_frame4.
    repeat apply rigid3_mmul3;
      auto using rigid3_I3, rigid3_RotX, rigid3_RotY, rigid3_RotZ.
Qed.

(** With no rotation, [make_frame] is the pure translation; this is how the
    base-mount frame is built. *)
Lemma make_frame_translation (t : vec3) :
  make_frame (Vec3 0 0 0) t = np.of_mat4 (frame4 I3 t).
Proof.
  rewrite make_frame_frame4. f_equal. apply Mat4_ext; simpl;
    rewrite ?sin_0, ?cos_0; ring.
Qed.

(** ** dh_tf *)

Lemma rotation_block_mmul4 (r1 r2 : mat3) (t1 t2 : vec3) :
  rotation_block (mmul4 (frame4 r1 t1) (frame4 r2 t2)) = mmul3 r1 r2.
Proof. apply Mat3_ext; simpl; ring. Qed.

Lemma mmul4_frame4 (r1 r2 : mat3) (t1 t2 : vec3) :
  exists t, mmul4 (frame4 r1 t1) (frame4 r2 t2) = frame4 (mmul3 r1 r2) t.
Proof.
  exists (Vec3 (r00 r1 * vx t2 + r01 r1 * vy t2 + r02 r1 * vz t2 + vx t1)
               (r10 r1 * vx t2 + r11 r1 * vy t2 + r12 r1 * vz t2 + vy t1)
               (r20 r1 * vx t2 + r21 r1 * vy t2 + r22 r1 * vz t2 + vz t1)).
  apply Mat4_ext; simpl; ring.
Qed.

(** The documented product would be rigid: its rotation block is
    RotZ(theta) RotX(alpha). *)
Lemma DH_product_rigid (alpha a d theta : R) :
  rigid3 (rotation_block (DH_product alpha a d theta)).
Proof.
  unfold DH_product.
  destruct (mmul4_frame4 (RotZ theta) I3 (Vec3 0 0 0) (Vec3 0 0 d)) as [t1 ->].
  destruct (mmul4_frame4 (mmul3 (RotZ theta) I3) I3 t1 (Vec3 a 0 0)) as [t2 ->].
  rewrite rotation_block_mmul4.
  repeat apply rigid3_mmul3;
    auto using rigid3_I3, rigid3_RotX, rigid3_RotZ.
Qed.

(** C3 (code defect).  The claim: for all real alpha, a, d, theta,
    [dh_tf] returns the 4x4 matrix RotZ(theta) TransZ(d) TransX(a)
    RotX(alpha).  The code: at every input [dh_tf] returns None, which is
    not an array at all, so it differs from the documented product
    everywhere. *)
Theorem dh_tf_returns_None (alpha a d theta : R) :
  dh_tf alpha a d theta = PyNone /\
  np.to_mat4 (dh_tf alpha a d theta) = None /\
  dh_tf alpha a d theta <> np.of_mat4 (DH_product alpha a d theta).
Proof.
  repeat split. intros H. discriminate H.
Qed.

(** C4 (code defect).  The claim: the matrices returned by [dh_tf] and by
    [make_frame] have a rotation block with orthonormal columns and
    determinant +1.  Over the reals this holds for [make_frame] at every
    input, and fails for [dh_tf] at every input, because [dh_tf] returns
    None. *)
Theorem rigidity_make_frame_not_dh_tf :
  (forall rotation translation : vec3,
      has_rigid_rotation (make_frame rotation translation)) /\
  (forall alpha a d theta : R,
      ~ has_rigid_rotation (dh_tf alpha a d theta)).
Proof.
  split.
  - exact make_frame_rigid.
  - intros alpha a d theta [m [H _]]. discriminate H.
Qed.

(** ** Forward kinematics *)

Lemma mprod_six (m1 m2 m3 m4 m5 m6 : mat4) :
  mmul4 (mmul4 (mmul4 (mmul4 (mmul4 m1 m2) m3) m4) m5) m6 =
  mprod [m1; m2; m3; m4; m5; m6].
Proof.
  unfold mprod; simpl. rewrite mmul4_I4_r, !mmul4_assoc. reflexivity.
Qed.

Lemma ee_frame_product (self : Fanuc.t) (m1 m2 m3 m4 m5 m6 : mat4) :
  map Joint.dh_transform (Fanuc.joints self) =
    map np.of_mat4 [m1; m2; m3; m4; m5; m6] ->
  Fanuc.ee_frame self = Ok (np.of_mat4 (mprod [m1; m2; m3; m4; m5; m6])).
Proof.
  intros H. injection H as H1 H2 H3 H4 H5 H6.
  unfold Fanuc.ee_frame. rewrite H1, H2, H3, H4, H5, H6.
  repeat (rewrite matmul_mat4; cbn [bind]).
  now rewrite mprod_six.
Qed.

Lemma draw_joints_product (js : list Joint.t) :
  forall (ms : list mat4) (c : mat4),
    map Joint.dh_transform js = map np.of_mat4 ms ->
    fst (Fanuc.draw_joints (np.of_mat4 c) js) =
      Ok (np.of_mat4 (mmul4 c (mprod ms))).
Proof.
  induction js as [|j js IH]; intros [|m ms] c H; try discriminate H.
  - simpl. now rewrite mmul4_I4_r.
  - simpl in H. injection H as Hj Hjs.
    cbn [Fanuc.draw_joints]. rewrite Hj, matmul_mat4.
    specialize (IH ms (mmul4 c m) Hjs).
    destruct (Fanuc.draw_joints (np.of_mat4 (mmul4 c m)) js) as [r rest].
    cbn [fst] in *. rewrite IH. cbn [mprod fold_right].
    now rewrite mmul4_assoc.
Qed.

Lemma calculate_fk_stores_Ellipsis (q : pyobj) (self : Fanuc.t) :
  fst (Fanuc.calculate_fk q self) = Ok tt /\
  Joint.dh_transform (Fanuc._joint_1 (snd (Fanuc.calculate_fk q self))) = PyEllipsis.
Proof. split; reflexivity. Qed.

Lemma ee_frame_after_calculate_fk (q : pyobj) (self : Fanuc.t) :
  raises (Fanuc.ee_frame (snd (Fanuc.calculate_fk q self))).
Proof.
  unfold Fanuc.ee_frame. apply raises_bind.
  change (Joint.dh_transform (Fanuc._joint_1 (snd (Fanuc.calculate_fk q self))))
    with PyEllipsis.
  apply matmul_Ellipsis_l.
Qed.

(** C2 (counterexample).  The claim: after [calculate_fk] the end-effector
    frame is the base-mount offset times the product of the six DH
    transforms.  On the robot [example_robot] and the angles
    [np.zeros(6)]: [calculate_fk] leaves Ellipsis in joint 1 and reading
    [ee_frame] raises, so it is no frame at all; and on the untouched robot,
    whose six joints hold the identity and whose mount is 1 mm high,
    [ee_frame] is the identity while the base offset times the product is
    the translation by 1 mm. *)
Lemma ee_frame_counterexample :
  raises (Fanuc.ee_frame (snd (Fanuc.calculate_fk zeros6 example_robot))) /\
  Fanuc.ee_frame example_robot = Ok (np.of_mat4 I4) /\
  (Joint.dh_transform (Fanuc._base_frame example_robot) @ np.of_mat4 I4)%np =
    Ok (np.of_mat4 (frame4 I3 (Vec3 0 0 1))) /\
  np.of_mat4 I4 <> np.of_mat4 (frame4 I3 (Vec3 0 0 1)).
Proof.
  split; [apply ee_frame_after_calculate_fk | split; [ | split]].
  - rewrite (@ee_frame_product example_robot I4 I4 I4 I4 I4 I4) by reflexivity.
    unfold mprod; simpl. now rewrite !mmul4_I4_r.
  - change (Joint.dh_transform (Fanuc._base_frame example_robot))
      with (make_frame (Vec3 0 0 0) (Vec3 0 0 1)).
    rewrite make_frame_translation, matmul_mat4. now rewrite mmul4_I4_r.
  - intros H. apply of_mat4_inj in H.
    apply (f_equal m23) in H. simpl in H. lra.
Qed.

(** C2 (as amended).  [ee_frame] is the ordered product of the transforms
    stored in the six joints, with no base-mount factor; the base-mount
    frame enters in the drawing loop, whose final running product is the
    base frame times that product. *)
Theorem ee_frame_is_joint_product
        (self : Fanuc.t) (b m1 m2 m3 m4 m5 m6 : mat4) :
  Joint.dh_transform (Fanuc._base_frame self) = np.of_mat4 b ->
  map Joint.dh_transform (Fanuc.joints self) =
    map np.of_mat4 [m1; m2; m3; m4; m5; m6] ->
  Fanuc.ee_frame self = Ok (np.of_mat4 (mprod [m1; m2; m3; m4; m5; m6])) /\
  fst (Fanuc.draw_joints (Joint.dh_transform (Fanuc._base_frame self))
                         (Fanuc.joints self)) =
    Ok (np.of_mat4 (mmul4 b (mprod [m1; m2; m3; m4; m5; m6]))).
Proof.
  intros Hb Hj. split.
  - now apply ee_frame_product.
  - rewrite Hb. now apply draw_joints_product.
Qed.

Lemma ee_frame_is_joint_product_witness :
  Fanuc.ee_frame example_robot = Ok (np.of_mat4 (mprod [I4; I4; I4; I4; I4; I4])) /\
  fst (Fanuc.draw_joints (Joint.dh_transform (Fanuc._base_frame example_robot))
                         (Fanuc.joints example_robot)) =
    Ok (np.of_mat4 (mmul4 example_mount (mprod [I4; I4; I4; I4; I4; I4]))).
Proof.
  apply (@ee_frame_is_joint_product example_robot example_mount
           I4 I4 I4 I4 I4 I4); reflexivity.
Defined.

(** ** Inverse kinematics, tool offset and path execution *)

Lemma is_inside_joint_limit_iff (self : Joint.t) (x : R) :
  Joint.is_inside_joint_limit self x = true <->
  Joint.low_limit self <= x <= Joint.high_limit self.
Proof.
  unfold Joint.is_inside_joint_limit.
  destruct (Rle_dec (Joint.low_limit self) x) as [Hl|Hl];
    [destruct (Rle_dec x (Joint.high_limit self)) as [Hh|Hh] | ];
    split; intros H; try discriminate H; try tauto; try lra.
Qed.

(** C6 (code defect).  The claim: composing the frame returned by
    [get_ee_pose_from_brush] with the tool's relative transform gives back
    the tool-tip frame.  The code: the function returns Ellipsis whatever
    it is given, and composing Ellipsis with any relative transform
    raises. *)
Theorem get_ee_pose_from_brush_returns_Ellipsis
        (self : Fanuc.t) (rotation brush_pose relative : pyobj) :
  Fanuc.get_ee_pose_from_brush self rotation brush_pose = PyEllipsis /\
  raises (Fanuc.get_ee_pose_from_brush self rotation brush_pose @ relative)%np.
Proof. split; [reflexivity | apply matmul_Ellipsis_l]. Qed.

(** Were the answer false exactly on the targets without a solution, every
    target would be without a solution. *)
Lemma calculate_ik_exactness (self : Fanuc.t) (no_solution : pyobj -> pyobj -> Prop) :
  (forall ee_frame prev,
      fst (Fanuc.calculate_ik self ee_frame prev) = false <->
      no_solution ee_frame prev) ->
  forall ee_frame prev, no_solution ee_frame prev.
Proof.
  intros H ee_frame prev. apply H. reflexivity.
Qed.

(** C7 (code defect).  The claim: [calculate_ik] reports found = false
    exactly when the target is out of reach or every candidate breaks a
    joint limit.  The code: found = false with an empty configuration at
    every input; the joint-limit test is never consulted, although the
    all-zero configuration lies inside the limits of a fresh joint. *)
Theorem calculate_ik_never_finds
        (self : Fanuc.t) (ee_frame prev_joint_angles : pyobj) :
  Fanuc.calculate_ik self ee_frame prev_joint_angles = (false, PyList []) /\
  Joint.is_inside_joint_limit Joint.__init__ 0 = true.
Proof.
  split; [reflexivity | ].
  apply is_inside_joint_limit_iff. unfold Joint.low_limit, Joint.high_limit.
  simpl. lra.
Qed.

(** C8 (counterexample).  The claim: a three-waypoint path whose second
    waypoint is out of reach yields a trajectory of length 1 and an abort
    result naming index 1.  On the file [prism.yaml] holding
    [three_waypoints], [draw_fanuc_path] returns None and leaves the robot
    as it was. *)
Lemma draw_fanuc_path_counterexample :
  Fanuc.draw_fanuc_path example_fs zeros6 "prism.yaml" example_robot =
    (Ok PyNone, example_robot) /\
  ~ aborted_at PyNone 1 1.
Proof.
  split; [reflexivity | ].
  intros [trajectory [rest [H _]]]. discriminate H.
Qed.

(** C8 (as amended).  Whenever the path file loads, [draw_fanuc_path]
    returns None: the caller receives no trajectory, index or reason. *)
Theorem draw_fanuc_path_returns_None
        (fs : general.filesystem) (starting_angles : pyobj) (path : string)
        (self : Fanuc.t) (data : pyobj) :
  general.get_data_from_yaml fs path = Ok data ->
  fst (Fanuc.draw_fanuc_path fs starting_angles path self) = Ok PyNone.
Proof.
  intros H. unfold Fanuc.draw_fanuc_path. now rewrite H.
Qed.

Lemma draw_fanuc_path_returns_None_witness :
  fst (Fanuc.draw_fanuc_path example_fs zeros6 "prism.yaml" example_robot) =
    Ok PyNone.
Proof.
  apply (@draw_fanuc_path_returns_None example_fs zeros6 "prism.yaml"
           example_robot three_waypoints).
  reflexivity.
Defined.

(** ** Shape validation *)

Lemma np_frame_to_kdl_rejects (v : pyobj) :
  general.check_proper_numpy_format v [4; 4]%nat = false ->
  general.np_frame_to_kdl v = Raise TypeError.
Proof.
  intros H. unfold general.np_frame_to_kdl. now rewrite H.
Qed.

Lemma draw_fanuc_outcome
      (paint_brush : pyobj -> method Brush.t unit) (v : pyobj) (self : Fanuc.t) :
  raises (fst (Fanuc.draw_fanuc paint_brush v self)) /\
  Joint.dh_transform (Fanuc._joint_1 (snd (Fanuc.draw_fanuc paint_brush v self))) =
    PyEllipsis.
Proof.
  destruct self as [drawn b base zero j1 j2 j3 j4 j5 j6].
  unfold Fanuc.draw_fanuc, mbind, Fanuc.initialize_fanuc_drawing.
  destruct (matmul_Ellipsis_r (Joint._dh_transform base)) as [e He].
  destruct drawn; cbn -[np.matmul]; rewrite He;
    (split; [now exists e | reflexivity]).
Qed.

Lemma draw_fanuc_ignores_argument
      (paint_brush : pyobj -> method Brush.t unit) (v w : pyobj) (self : Fanuc.t) :
  Fanuc.draw_fanuc paint_brush v self = Fanuc.draw_fanuc paint_brush w self.
Proof.
  destruct self as [drawn b base zero j1 j2 j3 j4 j5 j6].
  unfold Fanuc.draw_fanuc, mbind, Fanuc.initialize_fanuc_drawing.
  destruct (matmul_Ellipsis_r (Joint._dh_transform base)) as [e He].
  destruct drawn; cbn -[np.matmul]; rewrite !He; reflexivity.
Qed.

(** C9 (code defect).  The claim: a malformed transform or vector passed to
    an entry point that validates its input raises at the call boundary.
    The code: the boolean of [check_proper_numpy_format] is dropped by the
    setters of [Joint] and by [draw_fanuc].  A (3,3) array fails the check
    and is stored as the joint's DH transform all the same; [draw_fanuc]
    on five angles goes on into [calculate_fk] and ends exactly as it does
    on six angles.  Only [np_frame_to_kdl] turns the failed check into a
    TypeError. *)
Theorem shape_check_is_dropped :
  general.check_proper_numpy_format eye3 [4; 4]%nat = false /\
  fst (Joint.set_dh_transform eye3 Joint.__init__) = Ok tt /\
  Joint.dh_transform (snd (Joint.set_dh_transform eye3 Joint.__init__)) = eye3 /\
  fst (Joint.set_final_transform eye3 Joint.__init__) = Ok tt /\
  Joint.final_transform (snd (Joint.set_final_transform eye3 Joint.__init__)) = eye3 /\
  general.check_proper_numpy_format zeros5 [6]%nat = false /\
  (forall paint_brush,
      Fanuc.draw_fanuc paint_brush zeros5 example_robot =
      Fanuc.draw_fanuc paint_brush zeros6 example_robot) /\
  (forall paint_brush,
      Joint.dh_transform
        (Fanuc._joint_1 (snd (Fanuc.draw_fanuc paint_brush zeros5 example_robot))) =
      PyEllipsis) /\
  general.np_frame_to_kdl eye3 = Raise TypeError.
Proof.
  split; [reflexivity | ].
  split; [reflexivity | ].
  split; [reflexivity | ].
  split; [reflexivity | ].
  split; [reflexivity | ].
  split; [reflexivity | ].
  split; [intros paint_brush; apply draw_fanuc_ignores_argument | ].
  split; [intros paint_brush; apply draw_fanuc_outcome | ].
  reflexivity.
Qed.

(** ** Python list indexing *)

Section ListGetitem.

Context {A : Type}.
Implicit Types (l : list A) (i : Z).

Lemma list_getitem_nonnegative l i :
  (0 <= i < Z.of_nat (List.length l))%Z ->
  exists x, nth_error l (Z.to_nat i) = Some x /\ list_getitem l i = Ok x.
Proof.
  intros H. unfold list_getitem.
  destruct (Z.ltb_spec i 0) as [Hneg|_]; [lia | ].
  destruct (Z.leb_spec 0 i) as [_|Hlt]; [ | lia].
  destruct (Z.ltb_spec i (Z.of_nat (List.length l))) as [_|Hge]; [ | lia].
  cbn [andb].
  destruct (nth_error l (Z.to_nat i)) as [x|] eqn:E.
  - now exists x.
  - apply nth_error_None in E. lia.
Qed.

Lemma list_getitem_negative l i :
  (- Z.of_nat (List.length l) <= i < 0)%Z ->
  exists x,
    nth_error l (Z.to_nat (i + Z.of_nat (List.length l))) = Some x /\
    list_getitem l i = Ok x.
Proof.
  intros H. unfold list_getitem.
  destruct (Z.ltb_spec i 0) as [_|Hpos]; [ | lia].
  destruct (Z.leb_spec 0 (i + Z.of_nat (List.length l))) as [_|Hlt]; [ | lia].
  destruct (Z.ltb_spec (i + Z.of_nat (List.length l)) (Z.of_nat (List.length l)))
    as [_|Hge]; [ | lia].
  cbn [andb].
  destruct (nth_error l (Z.to_nat (i + Z.of_nat (List.length l)))) as [x|] eqn:E.
  - now exists x.
  - apply nth_error_None in E. lia.
Qed.

Lemma list_getitem_outside l i :
  (i < - Z.of_nat (List.length l) \/ Z.of_nat (List.length l) <= i)%Z ->
  list_getitem l i = Raise IndexError.
Proof.
  intros H. unfold list_getitem.
  destruct (Z.ltb_spec i 0) as [Hneg|Hpos].
  - destruct (Z.leb_spec 0 (i + Z.of_nat (List.length l))) as [Hle|_];
      [lia | reflexivity].
  - destruct (Z.ltb_spec i (Z.of_nat (List.length l))) as [Hlt|_]; [lia | ].
    now rewrite andb_false_r.
Qed.

End ListGetitem.

(** ** The brush *)

(** With the usual yaw and pitch frames for the two missing helpers, the
    constructor builds [example_brush]. *)
Lemma Brush_init_std : Brush.__init__ yawT_std pitchT_std = Ok example_brush.
Proof.
  unfold Brush.__init__, Brush._create_tool_relative_frames,
    Brush._make_tool_frame, yawT_std, pitchT_std, np.eye4.
  repeat (rewrite matmul_mat4; cbn [bind]).
  reflexivity.
Qed.

Lemma selection_setter_accepts (b : Brush.t) (n : Z) :
  (n <= Z.of_nat (List.length (Brush._colors b)))%Z ->
  Brush.selection_setter (PyInt n) b = (Ok tt, Brush.with_selection b n).
Proof.
  intros H. unfold Brush.selection_setter. cbn [Brush.isinstance_int].
  destruct (Z.gtb_spec n (Z.of_nat (List.length (Brush._colors b)))) as [Hgt|_];
    [lia | reflexivity].
Qed.

(** X15.  For a tool id between 1 and 4 the resolver answers with the
    frame at position id - 1 and records the id. *)
Lemma selected_brush_frame_dh_nonzero (b : Brush.t) (id : Z) :
  List.length (Brush._colors b) = 4%nat ->
  List.length (Brush._tool_relative_frames b) = 4%nat ->
  (1 <= id <= 4)%Z ->
  exists f,
    nth_error (Brush._tool_relative_frames b) (Z.to_nat (id - 1)) = Some f /\
    fst (select_and_read id b) = Ok f /\
    Brush._previously_selected_brush_frame (snd (select_and_read id b)) = id.
Proof.
  intros Hc Hr Hid.
  unfold select_and_read, mbind.
  rewrite selection_setter_accepts by (rewrite Hc; lia).
  unfold Brush.selected_brush_frame_dh.
  cbn [Brush.with_selection Brush.with_previously_selected Brush._selection
       Brush._tool_relative_frames Brush._previously_selected_brush_frame].
  destruct (Z.eqb_spec id 0) as [E|_]; [lia | ].
  destruct (@list_getitem_nonnegative _ (Brush._tool_relative_frames b) (id - 1))
    as [f [E1 E2]]; [rewrite Hr; lia | ].
  exists f. cbn [fst snd Brush.with_previously_selected
                 Brush._previously_selected_brush_frame]. auto.
Qed.

(** C5 (code defect).  The claim: with id 0 the resolver returns the
    relative transform of the last non-zero id selected.  The code stores
    the id itself and uses it as a list position, one place too far: on any
    brush with four colours and four relative frames [f1 .. f4], selecting
    tool 1 gives [f1], but going back to 0 gives [f2]; after tool 4, going
    back to 0 raises IndexError; and a new brush (previous selection 1)
    answers [f2] for id 0.  For a non-zero id the frame of that id is
    returned and the id recorded, as claimed. *)
Theorem previous_brush_frame_off_by_one
        (c1 c2 c3 c4 : list R) (drawn : bool) (sel prev : Z) (base : pyobj)
        (rad len : R) (f1 f2 f3 f4 : pyobj) (frames : list pyobj) :
  let b := Brush.mk [c1; c2; c3; c4] drawn sel base rad len prev
                    [f1; f2; f3; f4] frames in
  fst (select_and_read 1 b) = Ok f1 /\
  Brush._previously_selected_brush_frame (snd (select_and_read 1 b)) = 1%Z /\
  fst ((select_and_read 1 ;;; select_and_read 0) b) = Ok f2 /\
  fst (select_and_read 4 b) = Ok f4 /\
  fst ((select_and_read 4 ;;; select_and_read 0) b) = Raise IndexError /\
  fst (select_and_read 0
         (Brush.mk [c1; c2; c3; c4] drawn sel base rad len 1 [f1; f2; f3; f4] frames)) =
    Ok f2.
Proof.
  cbv zeta. repeat split; reflexivity.
Qed.

(** C10 (counterexample).  The claim: for every negative integer n the
    assignment succeeds and the colour and frame accessors then answer by
    negative indexing instead of failing.  With n = -5 the assignment
    succeeds and [color] raises IndexError; with n = -4 the frame accessor
    raises IndexError. *)
Lemma negative_selection_counterexample :
  fst (Brush.selection_setter (PyInt (-5)) example_brush) = Ok tt /\
  Brush.color (snd (Brush.selection_setter (PyInt (-5)) example_brush)) =
    Raise IndexError /\
  fst (Brush.selection_setter (PyInt (-4)) example_brush) = Ok tt /\
  Brush.selected_brush_frame
    (snd (Brush.selection_setter (PyInt (-4)) example_brush)) = Raise IndexError.
Proof. repeat split; reflexivity. Qed.

(** C10 (as amended).  On a brush with its four colours and four frames:
    the setter raises TypeError on a value that is not an int, ValueError
    on an int above 4, and accepts every negative int n.  After that,
    [color] (index n) answers with the colour at position n + 4 when
    -4 <= n and raises IndexError when n < -4; the frame accessors and
    [selected_color] (index n - 1) answer with the item at position n + 3
    when -3 <= n and raise IndexError when n < -3. *)
Theorem selection_setter_negative
        (b : Brush.t) (v : pyobj) (n : Z) :
  List.length (Brush._colors b) = 4%nat ->
  List.length (Brush._brush_frames b) = 4%nat ->
  List.length (Brush._tool_relative_frames b) = 4%nat ->
  (n < 0)%Z ->
  let b' := snd (Brush.selection_setter (PyInt n) b) in
  (Brush.isinstance_int v = None ->
   Brush.selection_setter v b = (Raise TypeError, b)) /\
  (forall k, Brush.isinstance_int v = Some k -> (4 < k)%Z ->
             Brush.selection_setter v b = (Raise ValueError, b)) /\
  fst (Brush.selection_setter (PyInt n) b) = Ok tt /\
  Brush.selection b' = n /\
  ((-4 <= n)%Z ->
   exists c, nth_error (Brush._colors b) (Z.to_nat (n + 4)) = Some c /\
             Brush.color b' = Ok c) /\
  ((n < -4)%Z -> Brush.color b' = Raise IndexError) /\
  ((-3 <= n)%Z ->
   (exists f, nth_error (Brush._brush_frames b) (Z.to_nat (n + 3)) = Some f /\
              Brush.selected_brush_frame b' = Ok f) /\
   (exists f, nth_error (Brush._tool_relative_frames b) (Z.to_nat (n + 3)) = Some f /\
              fst (Brush.selected_brush_frame_dh b') = Ok f) /\
   (exists c, nth_error (Brush._colors b) (Z.to_nat (n + 3)) = Some c /\
              Brush.selected_color b' = Ok c)) /\
  ((n < -3)%Z ->
   Brush.selected_brush_frame b' = Raise IndexError /\
   fst (Brush.selected_brush_frame_dh b') = Raise IndexError /\
   Brush.selected_color b' = Raise IndexError).
Proof.
  intros Hc Hf Hr Hn b'.
  assert (Hset : Brush.selection_setter (PyInt n) b = (Ok tt, Brush.with_selection b n))
    by (apply selection_setter_accepts; lia).
  assert (Hz : (n =? 0)%Z = false) by (apply Z.eqb_neq; lia).
  subst b'. rewrite Hset. cbn [fst snd].
  unfold Brush.color, Brush.selected_brush_frame, Brush.selected_brush_frame_dh,
    Brush.selected_color, Brush.selection.
  cbn [Brush.with_selection Brush.with_previously_selected Brush._selection
       Brush._colors Brush._brush_frames Brush._tool_relative_frames fst].
  rewrite Hz. cbn [fst].
  split; [ | split; [ | split; [ | split; [ | split; [ | split; [ | split]]]]]].
  - intros Hv. unfold Brush.selection_setter. now rewrite Hv.
  - intros k Hv Hk. unfold Brush.selection_setter. rewrite Hv, Hc.
    destruct (Z.gtb_spec k (Z.of_nat 4)) as [_|Hle]; [reflexivity | lia].
  - reflexivity.
  - reflexivity.
  - intros Hlo.
    destruct (@list_getitem_negative _ (Brush._colors b) n) as [c [E1 E2]];
      [rewrite Hc; lia | ].
    exists c. rewrite Hc in E1. now split.
  - intros Hlo. apply list_getitem_outside. rewrite Hc. lia.
  - intros Hlo. repeat split.
    + destruct (@list_getitem_negative _ (Brush._brush_frames b) (n - 1))
        as [f [E1 E2]]; [rewrite Hf; lia | ].
      exists f. rewrite Hf in E1.
      replace (n - 1 + Z.of_nat 4)%Z with (n + 3)%Z in E1 by lia. now split.
    + destruct (@list_getitem_negative _ (Brush._tool_relative_frames b) (n - 1))
        as [f [E1 E2]]; [rewrite Hr; lia | ].
      exists f. rewrite Hr in E1.
      replace (n - 1 + Z.of_nat 4)%Z with (n + 3)%Z in E1 by lia. now split.
    + destruct (@list_getitem_negative _ (Brush._colors b) (n - 1))
        as [c [E1 E2]]; [rewrite Hc; lia | ].
      exists c. rewrite Hc in E1.
      replace (n - 1 + Z.of_nat 4)%Z with (n + 3)%Z in E1 by lia. now split.
  - intros Hlo. repeat split; apply list_getitem_outside;
      rewrite ?Hc, ?Hf, ?Hr; lia.
Qed.

Lemma selection_setter_negative_witness :
  (List.length (Brush._colors example_brush) = 4%nat /\
   List.length (Brush._brush_frames example_brush) = 4%nat /\
   List.length (Brush._tool_relative_frames example_brush) = 4%nat /\
   (-2 < 0)%Z) /\
  Brush.selection_setter (PyFloat 2) example_brush = (Raise TypeError, example_brush) /\
  Brush.selection (snd (Brush.selection_setter (PyInt (-2)) example_brush)) = (-2)%Z /\
  Brush.color (snd (Brush.selection_setter (PyInt (-2)) example_brush)) =
    Ok [0.8500; 0.3250; 0.0980] /\
  Brush.selected_brush_frame
    (snd (Brush.selection_setter (PyInt (-2)) example_brush)) = Ok np.eye4.
Proof.
  split; [repeat split; reflexivity | ].
  destruct (@selection_setter_negative example_brush (PyFloat 2) (-2)%Z
              eq_refl eq_refl eq_refl eq_refl)
    as (Hty & _ & _ & Hsel & Hcol & _ & Hfr & _).
  split; [exact (Hty eq_refl) | ].
  split; [exact Hsel | ].
  split.
  - destruct Hcol as [c [E1 E2]]; [discriminate | ].
    rewrite E2. injection E1 as <-. reflexivity.
  - destruct Hfr as [[f [E1 E2]] _]; [discriminate | ].
    rewrite E2. injection E1 as <-. reflexivity.
Defined.

(* ================================================================== *)
(** * Further properties of the code *)

(** ** Conversions between numpy and KDL frames *)

Lemma to_mat4_inv (v : pyobj) (m : mat4) :
  np.to_mat4 v = Some m -> v = np.of_mat4 m.
Proof.
  intros H. destruct v as [ | | | | | | | | |sh d]; try discriminate H.
  unfold np.to_mat4 in H.
  repeat match type of H with
         | match ?x with _ => _ end = Some _ => destruct x; try discriminate H
         end.
  injection H as <-. reflexivity.
Qed.

(** X1.  Converting a KDL frame to a numpy array and back gives the frame
    again. *)
Theorem kdl_frame_round_trip (f : kdl.Frame) :
  general.np_frame_to_kdl (general.kdl_frame_to_np f) = Ok f.
Proof.
  destruct f as [[a00 a01 a02 a10 a11 a12 a20 a21 a22] [x y z]].
  reflexivity.
Qed.

(** X2.  Converting a (4,4) array to a KDL frame and back keeps the
    rotation block and the translation column and replaces the last row by
    0 0 0 1: the array comes back unchanged exactly when that was its last
    row. *)
Theorem np_frame_round_trip (v : pyobj) (m : mat4) :
  np.to_mat4 v = Some m ->
  exists f,
    general.np_frame_to_kdl v = Ok f /\
    general.kdl_frame_to_np f =
      np.of_mat4 (frame4 (rotation_block m) (Vec3 (m03 m) (m13 m) (m23 m))) /\
    (general.kdl_frame_to_np f = v <->
     m30 m = 0 /\ m31 m = 0 /\ m32 m = 0 /\ m33 m = 1).
Proof.
  intros H. apply to_mat4_inv in H. subst v.
  destruct m as [a00 a01 a02 a03 a10 a11 a12 a13 a20 a21 a22 a23 a30 a31 a32 a33].
  eexists. split; [reflexivity | split; [reflexivity | ]].
  split.
  - intros E. apply of_mat4_inj in E.
    injection E as E30 E31 E32 E33. auto.
  - intros (E30 & E31 & E32 & E33). cbn in *. subst. reflexivity.
Qed.

Lemma np_frame_round_trip_witness :
  np.to_mat4 np.eye4 = Some I4 /\
  exists f,
    general.np_frame_to_kdl np.eye4 = Ok f /\
    general.kdl_frame_to_np f = np.eye4.
Proof.
  split; [reflexivity | ].
  destruct (@np_frame_round_trip np.eye4 I4 eq_refl) as [f (H1 & _ & H3)].
  exists f. split; [exact H1 | ].
  apply H3. repeat split; reflexivity.
Defined.

(** X3.  [np_frame_to_kdl] succeeds exactly on numpy arrays of shape
    (4,4); on every other value (None, Ellipsis, a list, an array of
    another shape) it raises TypeError. *)
Theorem np_frame_to_kdl_accepts_iff (v : pyobj) :
  ((exists f, general.np_frame_to_kdl v = Ok f) <->
   (exists d, v = PyNdarray [4; 4]%nat d)) /\
  ((forall d, v <> PyNdarray [4; 4]%nat d) ->
   general.np_frame_to_kdl v = Raise TypeError).
Proof.
  assert (Hshape : forall sh d,
             general.check_proper_numpy_format (PyNdarray sh d) [4; 4]%nat = true ->
             sh = [4; 4]%nat).
  { intros sh d. unfold general.check_proper_numpy_format.
    destruct (list_eq_dec Nat.eq_dec sh [4; 4]%nat); [auto | discriminate]. }
  split; [split | ].
  - intros [f Hf]. destruct v as [ | | | | | | | | |sh d]; try discriminate Hf.
    unfold general.np_frame_to_kdl in Hf.
    destruct (general.check_proper_numpy_format (PyNdarray sh d) [4; 4]%nat) eqn:E;
      [ | discriminate Hf].
    apply Hshape in E. subst sh. now exists d.
  - intros [d ->]. eexists. reflexivity.
  - intros Hne. destruct v as [ | | | | | | | | |sh d]; try reflexivity.
    unfold general.np_frame_to_kdl.
    destruct (general.check_proper_numpy_format (PyNdarray sh d) [4; 4]%nat) eqn:E;
      [ | reflexivity].
    apply Hshape in E. subst sh. now contradiction (Hne d).
Qed.

(** ** make_frame *)

(** X4.  [make_frame] written out: the rotation block is the Z-Y-X Euler
    matrix RotZ(rz) RotY(ry) RotX(rx), the last column is the translation
    and the last row is 0 0 0 1. *)
Theorem make_frame_entries (rx ry rz : R) (t : vec3) :
  make_frame (Vec3 rx ry rz) t =
  np.of_mat4
    (Mat4 (cos rz * cos ry)
          (cos rz * sin ry * sin rx - sin rz * cos rx)
          (cos rz * sin ry * cos rx + sin rz * sin rx)
          (vx t)
          (sin rz * cos ry)
          (sin rz * sin ry * sin rx + cos rz * cos rx)
          (sin rz * sin ry * cos rx - cos rz * sin rx)
          (vy t)
          (- sin ry)
          (cos ry * sin rx)
          (cos ry * cos rx)
          (vz t)
          0 0 0 1).
Proof.
  rewrite make_frame_frame4. f_equal. apply Mat4_ext; simpl; ring.
Qed.

(** X5.  Two frames built by [make_frame] without rotation compose to the
    frame of the summed translation. *)
Theorem make_frame_translations_compose (t1 t2 : vec3) :
  (make_frame (Vec3 0 0 0) t1 @ make_frame (Vec3 0 0 0) t2)%np =
  Ok (make_frame (Vec3 0 0 0)
        (Vec3 (vx t1 + vx t2) (vy t1 + vy t2) (vz t1 + vz t2))).
Proof.
  rewrite !make_frame_translation, matmul_mat4. do 2 f_equal.
  apply Mat4_ext; simpl; ring.
Qed.

Lemma sin_plus_2PI (x : R) : sin (x + 2 * PI) = sin x.
Proof. rewrite sin_plus, sin_2PI, cos_2PI. ring. Qed.

Lemma cos_plus_2PI (x : R) : cos (x + 2 * PI) = cos x.
Proof. rewrite cos_plus, sin_2PI, cos_2PI. ring. Qed.

(** X6.  [make_frame] is 2 pi periodic in each of its three angles. *)
Theorem make_frame_periodic (rx ry rz : R) (t : vec3) :
  make_frame (Vec3 (rx + 2 * PI) ry rz) t = make_frame (Vec3 rx ry rz) t /\
  make_frame (Vec3 rx (ry + 2 * PI) rz) t = make_frame (Vec3 rx ry rz) t /\
  make_frame (Vec3 rx ry (rz + 2 * PI)) t = make_frame (Vec3 rx ry rz) t.
Proof.
  rewrite !make_frame_frame4. unfold RotX, RotY, RotZ. cbn [vx vy vz].
  rewrite !sin_plus_2PI, !cos_plus_2PI. repeat split.
Qed.

(** ** Joint limits *)

(** X7.  After [set_joint_limits(lo, hi)] an angle is inside the limits
    exactly when lo <= angle <= hi, both ends included; with hi < lo no
    angle is inside; a joint whose limits were never set admits the angle 0
    only; and the setters of the transforms and [draw] do not touch the
    limits. *)
Theorem joint_limits_inclusive (j : Joint.t) (lo hi x : R) (T : pyobj) :
  let j' := snd (Joint.set_joint_limits lo hi j) in
  (Joint.is_inside_joint_limit j' x = true <-> lo <= x <= hi) /\
  (hi < lo -> Joint.is_inside_joint_limit j' x = false) /\
  (Joint.is_inside_joint_limit Joint.__init__ x = true <-> x = 0) /\
  Joint.is_inside_joint_limit (snd (Joint.set_dh_transform T j')) x =
    Joint.is_inside_joint_limit j' x /\
  Joint.is_inside_joint_limit (snd (Joint.set_final_transform T j')) x =
    Joint.is_inside_joint_limit j' x /\
  Joint.is_inside_joint_limit (snd (Joint.draw j')) x =
    Joint.is_inside_joint_limit j' x /\
  Joint.dh_transform j' = Joint.dh_transform j /\
  Joint.final_transform j' = Joint.final_transform j.
Proof.
  cbv zeta. split; [ | split; [ | split]].
  - rewrite is_inside_joint_limit_iff. reflexivity.
  - intros Hlt.
    destruct (Joint.is_inside_joint_limit (snd (Joint.set_joint_limits lo hi j)) x)
      eqn:E; [ | reflexivity].
    apply is_inside_joint_limit_iff in E.
    unfold Joint.low_limit, Joint.high_limit in E. simpl in E. lra.
  - rewrite is_inside_joint_limit_iff.
    unfold Joint.low_limit, Joint.high_limit. simpl. split; intros; lra.
  - repeat split.
Qed.

(** ** Reading the end-effector frame *)




(** ** The drawing loop over the joints *)

(** X9.  Whatever the joints hold and whether or not it raises, the loop
    of [draw_fanuc] keeps the number of joints, their DH transforms and
    their limits. *)
Theorem draw_joints_keeps_dh (c : pyobj) (js : list Joint.t) :
  List.length (snd (Fanuc.draw_joints c js)) = List.length js /\
  map Joint.dh_transform (snd (Fanuc.draw_joints c js)) = map Joint.dh_transform js /\
  map Joint._joint_limit (snd (Fanuc.draw_joints c js)) = map Joint._joint_limit js.
Proof.
  revert c. induction js as [|j js IH]; intros c; [repeat split | ].
  cbn [Fanuc.draw_joints].
  destruct (c @ Joint.dh_transform j)%np as [c'|e]; [ | repeat split].
  specialize (IH c').
  destruct (Fanuc.draw_joints c' js) as [r rest]. cbn [snd] in *.
  destruct IH as (IH1 & IH2 & IH3).
  cbn [List.length map]. rewrite IH1, IH2, IH3. repeat split.
Qed.

(** X10.  When the joints hold (4,4) transforms m1, m2, ..., the loop
    started at the frame c succeeds; afterwards joint i stores, and its
    artist shows, the running product c m1 ... mi, and every joint is
    marked as drawn. *)
Theorem draw_joints_running_products (js : list Joint.t) :
  forall (ms : list mat4) (c : mat4),
    map Joint.dh_transform js = map np.of_mat4 ms ->
    (exists last, fst (Fanuc.draw_joints (np.of_mat4 c) js) = Ok last) /\
    map Joint.final_transform (snd (Fanuc.draw_joints (np.of_mat4 c) js)) =
      map np.of_mat4 (running_products c ms) /\
    map Joint._frame_drawing (snd (Fanuc.draw_joints (np.of_mat4 c) js)) =
      map np.of_mat4 (running_products c ms) /\
    Forall (fun j => Joint._drawn_once j = true)
           (snd (Fanuc.draw_joints (np.of_mat4 c) js)).
Proof.
  induction js as [|j js IH]; intros [|m ms] c H; try discriminate H.
  - repeat split; [now eexists | constructor].
  - simpl in H. injection H as Hj Hjs.
    cbn [Fanuc.draw_joints]. rewrite Hj, matmul_mat4.
    specialize (IH ms (mmul4 c m) Hjs).
    destruct (Fanuc.draw_joints (np.of_mat4 (mmul4 c m)) js) as [r rest].
    cbn [fst snd] in *. destruct IH as (IH1 & IH2 & IH3 & IH4).
    cbn [map running_products]. rewrite IH2, IH3.
    repeat split; [exact IH1 | ]. constructor; [reflexivity | exact IH4].
Qed.

Lemma draw_joints_running_products_witness :
  map Joint.final_transform
      (snd (Fanuc.draw_joints (np.of_mat4 example_mount)
                              (Fanuc.joints example_robot))) =
  map np.of_mat4 (running_products example_mount [I4; I4; I4; I4; I4; I4]).
Proof.
  apply (@draw_joints_running_products (Fanuc.joints example_robot)
           [I4; I4; I4; I4; I4; I4] example_mount).
  reflexivity.
Defined.



(** ** draw_fanuc in the skeleton *)

(** X12.  As [calculate_fk] stands, [draw_fanuc] raises before it reaches
    the brush, whatever the brush step is and whatever angles it is given:
    the brush is untouched, the robot is marked as drawn, and a second call
    leaves the robot exactly as the first one did. *)
Theorem draw_fanuc_stops_before_brush
        (p1 p2 : pyobj -> method Brush.t unit) (v w : pyobj) (self : Fanuc.t) :
  raises (fst (Fanuc.draw_fanuc p1 v self)) /\
  Fanuc.draw_fanuc p1 v self = Fanuc.draw_fanuc p2 w self /\
  Fanuc.brush (snd (Fanuc.draw_fanuc p1 v self)) = Fanuc.brush self /\
  Fanuc._drawn_once (snd (Fanuc.draw_fanuc p1 v self)) = true /\
  snd (Fanuc.draw_fanuc p2 w (snd (Fanuc.draw_fanuc p1 v self))) =
    snd (Fanuc.draw_fanuc p1 v self).
Proof.
  destruct self as [drawn b base zero j1 j2 j3 j4 j5 j6].
  unfold Fanuc.draw_fanuc, mbind, Fanuc.initialize_fanuc_drawing.
  destruct (matmul_Ellipsis_r (Joint._dh_transform base)) as [e He].
  destruct drawn; cbn -[np.matmul]; rewrite ?He; cbn -[np.matmul];
    rewrite ?He; (split; [now exists e | repeat split]).
Qed.

(** ** Selecting a brush *)

(** X13.  The setter of [selection] succeeds exactly on an int (or bool)
    that is at most the number of colours; when it raises the brush is
    unchanged, and when it succeeds only the selection changes. *)
Theorem selection_setter_outcome (b : Brush.t) (v : pyobj) :
  (fst (Brush.selection_setter v b) = Ok tt <->
   exists n, Brush.isinstance_int v = Some n /\
             (n <= Z.of_nat (List.length (Brush._colors b)))%Z) /\
  (forall e, fst (Brush.selection_setter v b) = Raise e ->
             snd (Brush.selection_setter v b) = b) /\
  (forall n, Brush.isinstance_int v = Some n ->
             (n <= Z.of_nat (List.length (Brush._colors b)))%Z ->
             Brush.selection (snd (Brush.selection_setter v b)) = n) /\
  Brush._colors (snd (Brush.selection_setter v b)) = Brush._colors b /\
  Brush._tool_relative_frames (snd (Brush.selection_setter v b)) =
    Brush._tool_relative_frames b /\
  Brush._brush_frames (snd (Brush.selection_setter v b)) = Brush._brush_frames b /\
  Brush._previously_selected_brush_frame (snd (Brush.selection_setter v b)) =
    Brush._previously_selected_brush_frame b.
Proof.
  unfold Brush.selection_setter.
  destruct (Brush.isinstance_int v) as [n|] eqn:Hv.
  - destruct (Z.gtb_spec n (Z.of_nat (List.length (Brush._colors b)))) as [Hgt|Hle];
      cbn [fst snd].
    + repeat split; try discriminate.
      intros [k [Hk Hle]]. injection Hk as <-. lia.
      intros k Hk Hle. injection Hk as <-. lia.
    + repeat split; try discriminate.
      * now exists n.
      * intros k Hk _. now injection Hk as <-.
  - cbn [fst snd]. repeat split; try discriminate.
    intros [k [Hk _]]. discriminate Hk.
Qed.

Lemma select_and_read_eq (b : Brush.t) (n : Z) :
  (n <= Z.of_nat (List.length (Brush._colors b)))%Z ->
  select_and_read n b = Brush.selected_brush_frame_dh (Brush.with_selection b n).
Proof.
  intros H. unfold select_and_read, mbind.
  now rewrite selection_setter_accepts.
Qed.

(** X14.  On a brush with four colours and a selection n between 0 and 4:
    [color] indexes the colours with n itself, so it answers with the
    colour at position n for n <= 3 and raises IndexError for n = 4, while
    [selected_color] indexes with n - 1 and answers black for n = 0. *)
Theorem color_and_selected_color (b : Brush.t) (n : Z) :
  List.length (Brush._colors b) = 4%nat ->
  (0 <= n <= 4)%Z ->
  let b' := snd (Brush.selection_setter (PyInt n) b) in
  fst (Brush.selection_setter (PyInt n) b) = Ok tt /\
  ((n <= 3)%Z ->
   exists c, nth_error (Brush._colors b) (Z.to_nat n) = Some c /\
             Brush.color b' = Ok c) /\
  (n = 4%Z -> Brush.color b' = Raise IndexError) /\
  ((1 <= n)%Z ->
   exists c, nth_error (Brush._colors b) (Z.to_nat (n - 1)) = Some c /\
             Brush.selected_color b' = Ok c) /\
  (n = 0%Z -> Brush.selected_color b' = Ok [0; 0; 0]).
Proof.
  intros Hc Hn b'. subst b'.
  rewrite selection_setter_accepts by (rewrite Hc; lia). cbn [fst snd].
  unfold Brush.color, Brush.selected_color.
  cbn [Brush.with_selection Brush._selection Brush._colors].
  split; [reflexivity | split; [ | split; [ | split]]].
  - intros H3. apply list_getitem_nonnegative. rewrite Hc. lia.
  - intros ->. apply list_getitem_outside. rewrite Hc. lia.
  - intros H1. destruct (Z.eqb_spec n 0) as [E|_]; [lia | ].
    apply list_getitem_nonnegative. rewrite Hc. lia.
  - intros ->. reflexivity.
Qed.

Lemma color_and_selected_color_witness :
  (List.length (Brush._colors example_brush) = 4%nat /\ (0 <= 4 <= 4)%Z) /\
  fst (Brush.selection_setter (PyInt 4) example_brush) = Ok tt /\
  Brush.color (snd (Brush.selection_setter (PyInt 4) example_brush)) =
    Raise IndexError /\
  Brush.selected_color (snd (Brush.selection_setter (PyInt 4) example_brush)) =
    Ok [0; 0.4470; 0.7410].
Proof.
  split; [split; [reflexivity | lia] | ].
  destruct (@color_and_selected_color example_brush 4%Z eq_refl)
    as (Hset & _ & Hcol & Hsel & _); [lia | ].
  split; [exact Hset | split; [exact (Hcol eq_refl) | ]].
  destruct Hsel as [c [E1 E2]]; [lia | ].
  rewrite E2. injection E1 as <-. reflexivity.
Defined.

Lemma selected_brush_frame_dh_nonzero_witness :
  exists f,
    nth_error (Brush._tool_relative_frames example_brush) (Z.to_nat (3 - 1)) = Some f /\
    fst (select_and_read 3 example_brush) = Ok f /\
    Brush._previously_selected_brush_frame (snd (select_and_read 3 example_brush)) = 3%Z.
Proof.
  apply (@selected_brush_frame_dh_nonzero example_brush 3%Z eq_refl eq_refl).
  lia.
Defined.

(** X16.  Going back to "no tool" after tool id: for id between 1 and 3
    the resolver answers with the relative frame at list position id, the
    frame of tool id + 1; for id = 4 it raises IndexError.  The stored
    previous selection stays id. *)
Theorem none_after_tool_gives_next_tool (b : Brush.t) (id : Z) :
  brush_wf b ->
  (1 <= id <= 4)%Z ->
  let run := (select_and_read id ;;; select_and_read 0) b in
  ((id <= 3)%Z ->
   exists f, nth_error (Brush._tool_relative_frames b) (Z.to_nat id) = Some f /\
             fst run = Ok f) /\
  (id = 4%Z -> fst run = Raise IndexError) /\
  Brush._previously_selected_brush_frame (snd run) = id /\
  Brush.selection (snd run) = 0%Z.
Proof.
  intros (Hc & Hr & _) Hid run.
  assert (Hrun : run =
            (list_getitem (Brush._tool_relative_frames b) id,
             Brush.with_selection
               (Brush.with_previously_selected (Brush.with_selection b id) id) 0)).
  { subst run. unfold mbind.
    rewrite select_and_read_eq by (rewrite Hc; lia).
    unfold Brush.selected_brush_frame_dh at 1.
    cbn [Brush.with_selection Brush.with_previously_selected Brush._selection
         Brush._tool_relative_frames].
    destruct (Z.eqb_spec id 0) as [E|_]; [lia | ].
    destruct (@list_getitem_nonnegative _ (Brush._tool_relative_frames b) (id - 1))
      as [f0 [_ E0]]; [rewrite Hr; lia | ].
    rewrite E0.
    rewrite select_and_read_eq
      by (cbn [Brush._colors Brush.with_selection Brush.with_previously_selected];
          rewrite Hc; lia).
    reflexivity. }
  rewrite Hrun. cbn [fst snd].
  split; [ | split; [ | split; reflexivity]].
  - intros H3. apply list_getitem_nonnegative. rewrite Hr. lia.
  - intros ->. apply list_getitem_outside. rewrite Hr. lia.
Qed.

Lemma none_after_tool_gives_next_tool_witness :
  (brush_wf example_brush /\ (1 <= 2 <= 4)%Z) /\
  fst ((select_and_read 2 ;;; select_and_read 0) example_brush) =
    Ok (np.of_mat4 (tool_frame_std (PI / 4))).
Proof.
  split; [split; [repeat split | lia] | ].
  destruct (@none_after_tool_gives_next_tool example_brush 2%Z)
    as (H & _); [repeat split | lia | ].
  destruct H as [f [E1 E2]]; [lia | ].
  rewrite E2. injection E1 as <-. reflexivity.
Defined.

(** X17.  The constructor, when it succeeds, gives a brush with four
    colours, four relative frames and four brush frames, no tool selected
    and previous selection 1. *)
Theorem Brush_init_wf (yawT pitchT : R -> pyobj) (b : Brush.t) :
  Brush.__init__ yawT pitchT = Ok b ->
  brush_wf b /\
  Brush.selection b = 0%Z /\
  Brush._previously_selected_brush_frame b = 1%Z /\
  Brush._brush_frames b = [np.eye4; np.eye4; np.eye4; np.eye4].
Proof.
  unfold Brush.__init__. intros H.
  destruct (Brush._create_tool_relative_frames yawT pitchT 50 300)
    as [frames|e] eqn:E; cbn [bind] in H; [ | discriminate H].
  injection H as <-.
  unfold Brush._create_tool_relative_frames in E.
  repeat match type of E with
         | bind (Brush._make_tool_frame ?y ?p ?r ?t) _ = Ok _ =>
             destruct (Brush._make_tool_frame y p r t);
             cbn [bind] in E; [ | discriminate E]
         end.
  injection E as <-. unfold brush_wf. repeat split.
Qed.

Lemma Brush_init_wf_witness :
  Brush.__init__ yawT_std pitchT_std = Ok example_brush /\
  brush_wf example_brush.
Proof.
  split; [exact Brush_init_std | ].
  apply (@Brush_init_wf yawT_std pitchT_std example_brush Brush_init_std).
Defined.

(** X18.  The setter of [selection] and the reading of the relative frame
    keep the three lists of the brush at four entries. *)
Theorem brush_wf_preserved (b : Brush.t) (v : pyobj) :
  brush_wf b ->
  brush_wf (snd (Brush.selection_setter v b)) /\
  brush_wf (snd (Brush.selected_brush_frame_dh b)) /\
  (forall id, brush_wf (snd (select_and_read id b))).
Proof.
  intros Hwf.
  assert (Hset : forall u b0, brush_wf b0 -> brush_wf (snd (Brush.selection_setter u b0))).
  { intros u b0 H. unfold Brush.selection_setter.
    destruct (Brush.isinstance_int u) as [n|]; [ | exact H].
    destruct (n >? Z.of_nat (List.length (Brush._colors b0)))%Z; exact H. }
  assert (Hread : forall b0, brush_wf b0 -> brush_wf (snd (Brush.selected_brush_frame_dh b0))).
  { intros b0 H. unfold Brush.selected_brush_frame_dh.
    destruct (Brush._selection b0 =? 0)%Z; exact H. }
  split; [now apply Hset | split; [now apply Hread | ]].
  intros id. unfold select_and_read, mbind.
  specialize (Hset (PyInt id) b Hwf).
  destruct (Brush.selection_setter (PyInt id) b) as [[[]|e] b1]; cbn [snd] in *.
  - now apply Hread.
  - exact Hset.
Qed.

Lemma brush_wf_preserved_witness :
  brush_wf example_brush /\
  brush_wf (snd (select_and_read 4 example_brush)).
Proof.
  split; [repeat split | ].
  apply (@brush_wf_preserved example_brush PyNone); repeat split.
Defined.

(** ** Building the tool frames *)

Lemma make_tool_frame_eq
      (yawT pitchT : R -> pyobj) (Y P : mat4) (rotation translation : vec3) :
  yawT (vz rotation) = np.of_mat4 Y ->
  pitchT (vy rotation) = np.of_mat4 P ->
  Brush._make_tool_frame yawT pitchT rotation translation =
    Ok (np.of_mat4
          (mmul4 (mmul4 (mmul4 Y (frame4 I3 (Vec3 (vx translation) 0 0))) P)
                 (frame4 I3 (Vec3 0 0 (vz translation))))).
Proof.
  intros HY HP.
  unfold Brush._make_tool_frame, np.eye4. rewrite HY, HP.
  repeat (rewrite matmul_mat4; cbn [bind]).
  rewrite mmul4_I4_l. reflexivity.
Qed.

(** X19.  When the yaw and pitch helpers answer with (4,4) arrays Y and P,
    [_make_tool_frame] returns the product Y TransX(tx) P TransZ(tz).  The
    roll angle and the y translation of its arguments are never read. *)
Theorem make_tool_frame_product
        (yawT pitchT : R -> pyobj) (Y P : mat4) (rotation translation : vec3) :
  yawT (vz rotation) = np.of_mat4 Y ->
  pitchT (vy rotation) = np.of_mat4 P ->
  Brush._make_tool_frame yawT pitchT rotation translation =
    Ok (np.of_mat4
          (mmul4 (mmul4 (mmul4 Y (frame4 I3 (Vec3 (vx translation) 0 0))) P)
                 (frame4 I3 (Vec3 0 0 (vz translation))))) /\
  forall roll ty,
    Brush._make_tool_frame yawT pitchT
      (Vec3 roll (vy rotation) (vz rotation))
      (Vec3 (vx translation) ty (vz translation)) =
    Brush._make_tool_frame yawT pitchT rotation translation.
Proof.
  intros HY HP. split; [now apply make_tool_frame_eq | reflexivity].
Qed.

Lemma make_tool_frame_product_witness :
  Brush._make_tool_frame yawT_std pitchT_std
    (Vec3 0 (- PI / 4) (PI / 4)) (Vec3 (- 50) 0 300) =
  Ok (np.of_mat4
        (mmul4 (mmul4 (mmul4 (frame4 (RotZ (PI / 4)) (Vec3 0 0 0))
                             (frame4 I3 (Vec3 (- 50) 0 0)))
                      (frame4 (RotY (- PI / 4)) (Vec3 0 0 0)))
               (frame4 I3 (Vec3 0 0 300)))).
Proof.
  apply (@make_tool_frame_product yawT_std pitchT_std
           (frame4 (RotZ (PI / 4)) (Vec3 0 0 0))
           (frame4 (RotY (- PI / 4)) (Vec3 0 0 0))
           (Vec3 0 (- PI / 4) (PI / 4)) (Vec3 (- 50) 0 300));
    reflexivity.
Defined.

Lemma make_tool_frame_rigid
      (yawT pitchT : R -> pyobj) (ry rp : R -> mat3) (ty tp : R -> vec3)
      (rotation translation : vec3) :
  (forall a, yawT a = np.of_mat4 (frame4 (ry a) (ty a)) /\ rigid3 (ry a)) ->
  (forall a, pitchT a = np.of_mat4 (frame4 (rp a) (tp a)) /\ rigid3 (rp a)) ->
  exists v, Brush._make_tool_frame yawT pitchT rotation translation = Ok v /\
            has_rigid_rotation v.
Proof.
  intros HY HP.
  destruct (HY (vz rotation)) as [EY RY]. destruct (HP (vy rotation)) as [EP RP].
  pose proof (@make_tool_frame_eq _ _ _ _ rotation translation EY EP) as E.
  eexists. split; [exact E | ].
  destruct (mmul4_frame4 (ry (vz rotation)) I3 (ty (vz rotation))
                         (Vec3 (vx translation) 0 0)) as [t1 ->].
  destruct (mmul4_frame4 (mmul3 (ry (vz rotation)) I3) (rp (vy rotation)) t1
                         (tp (vy rotation))) as [t2 ->].
  eexists. split; [apply to_mat4_of_mat4 | ].
  rewrite rotation_block_mmul4.
  repeat apply rigid3_mmul3; auto using rigid3_I3.
Qed.

(** X20.  When the yaw and pitch helpers answer with homogeneous frames
    whose rotation is rigid, the constructor succeeds and the four relative
    tool frames it stores have orthonormal rotation blocks of determinant
    +1. *)
Theorem Brush_init_rigid
        (yawT pitchT : R -> pyobj) (ry rp : R -> mat3) (ty tp : R -> vec3) :
  (forall a, yawT a = np.of_mat4 (frame4 (ry a) (ty a)) /\ rigid3 (ry a)) ->
  (forall a, pitchT a = np.of_mat4 (frame4 (rp a) (tp a)) /\ rigid3 (rp a)) ->
  exists b, Brush.__init__ yawT pitchT = Ok b /\
            Forall has_rigid_rotation (Brush._tool_relative_frames b).
Proof.
  intros HY HP.
  unfold Brush.__init__, Brush._create_tool_relative_frames.
  repeat match goal with
         | |- context [Brush._make_tool_frame yawT pitchT ?r ?t] =>
             let v := fresh "v" in
             let E := fresh "E" in
             let H := fresh "H" in
             destruct (@make_tool_frame_rigid yawT pitchT ry rp ty tp r t HY HP)
               as [v [E H]];
             rewrite E; cbn [bind]
         end.
  eexists. split; [reflexivity | ].
  cbn [Brush._tool_relative_frames]. repeat constructor; assumption.
Qed.

Lemma Brush_init_rigid_witness :
  exists b, Brush.__init__ yawT_std pitchT_std = Ok b /\
            Forall has_rigid_rotation (Brush._tool_relative_frames b).
Proof.
  apply (@Brush_init_rigid yawT_std pitchT_std RotZ RotY
           (fun _ => Vec3 0 0 0) (fun _ => Vec3 0 0 0)).
  - intros a. split; [reflexivity | apply rigid3_RotZ].
  - intros a. split; [reflexivity | apply rigid3_RotY].
Defined.



(** ** Drawing the brush *)

Lemma length_four {A : Type} (l : list A) :
  List.length l = 4%nat -> exists a b c d, l = [a; b; c; d].
Proof.
  destruct l as [|a [|b [|c [|d [|e l]]]]]; try discriminate. intros _.
  now exists a, b, c, d.
Qed.

Ltac norm_pos :=
  repeat match goal with
         | |- context [Pos.to_nat ?p] =>
             let n := eval compute in (Pos.to_nat p) in
             change (Pos.to_nat p) with n
         end.

Ltac norm_to_nat :=
  repeat match goal with
         | |- context [Z.to_nat ?z] =>
             let n := eval compute in (Z.to_nat z) in
             change (Z.to_nat z) with n
         end.

Ltac norm_to_nat_in H :=
  repeat match type of H with
         | context [Z.to_nat ?z] =>
             let n := eval compute in (Z.to_nat z) in
             change (Z.to_nat z) with n in H
         end.

Ltac run_brush :=
  repeat (progress (cbn -[np.matmul np.of_mat4 mmul4]; norm_pos;
                    rewrite ?matmul_mat4)).

Lemma update_tool_frames_all
      (allclose : pyobj -> pyobj -> result bool)
      (s : BrushDrawing.t) (F r1 r2 r3 r4 : mat4) :
  Brush._tool_base_frame (BrushDrawing.brush s) = np.of_mat4 F ->
  Brush._tool_relative_frames (BrushDrawing.brush s) =
    map np.of_mat4 [r1; r2; r3; r4] ->
  List.length (Brush._brush_frames (BrushDrawing.brush s)) = 4%nat ->
  List.length (BrushDrawing._tool_lines s) = 4%nat ->
  BrushDrawing._update_tool_frames allclose true s =
    (Ok tt,
     BrushDrawing.mk
       (BrushDrawing.with_brush_frames (BrushDrawing.brush s)
          (tool_tips F [r1; r2; r3; r4]))
       (tool_lines_shown F [r1; r2; r3; r4])
       (BrushDrawing._ax s)).
Proof.
  destruct s as [b lines ax].
  destruct b as [cols drawn sel base rad len prev rel frames].
  cbn [BrushDrawing.brush BrushDrawing._tool_lines BrushDrawing._ax
       Brush._tool_base_frame Brush._tool_relative_frames Brush._brush_frames].
  intros -> -> Hf Hl.
  destruct (length_four _ Hf) as (b1 & b2 & b3 & b4 & ->).
  destruct (length_four _ Hl) as (l1 & l2 & l3 & l4 & ->).
  unfold BrushDrawing._update_tool_frames.
  cbn [BrushDrawing.brush Brush._tool_relative_frames map BrushDrawing.update_loop].
  unfold mbind, BrushDrawing.update_one, BrushDrawing.tool_line_update_frames.
  run_brush. reflexivity.
Qed.

Ltac ask_allclose f Htotal :=
  unfold np.eye4;
  match goal with
  | |- context [f (np.of_mat4 ?x) (np.of_mat4 ?y)] =>
      let c := fresh "c" in
      let Hc := fresh "Hc" in
      destruct (Htotal x y) as [c Hc]; rewrite Hc; destruct c
  end.

Lemma update_tool_frames_enabled
      (allclose : pyobj -> pyobj -> result bool)
      (s : BrushDrawing.t) (F r1 r2 r3 r4 o1 o2 o3 o4 : mat4) :
  (forall a b : mat4, exists c, allclose (np.of_mat4 a) (np.of_mat4 b) = Ok c) ->
  Brush._tool_base_frame (BrushDrawing.brush s) = np.of_mat4 F ->
  Brush._tool_relative_frames (BrushDrawing.brush s) =
    map np.of_mat4 [r1; r2; r3; r4] ->
  Brush._brush_frames (BrushDrawing.brush s) = map np.of_mat4 [o1; o2; o3; o4] ->
  List.length (BrushDrawing._tool_lines s) = 4%nat ->
  (0 <= Brush._selection (BrushDrawing.brush s) <= 4)%Z ->
  exists lines,
    BrushDrawing._update_tool_frames allclose false s =
      (Ok tt,
       BrushDrawing.mk
         (BrushDrawing.with_brush_frames (BrushDrawing.brush s)
            (tool_tips F [r1; r2; r3; r4]))
         lines (BrushDrawing._ax s)) /\
    List.length lines = 4%nat /\
    ((forall a : mat4, allclose (np.of_mat4 a) (np.of_mat4 a) = Ok true) ->
     forall r,
       nth_error [r1; r2; r3; r4]
                 (Z.to_nat (Brush._selection (BrushDrawing.brush s) - 1)) = Some r ->
       (1 <= Brush._selection (BrushDrawing.brush s))%Z ->
       nth_error lines (Z.to_nat (Brush._selection (BrushDrawing.brush s) - 1)) =
         Some (BrushDrawing.mkLine (np.of_mat4 F) (np.of_mat4 (mmul4 F r)))).
Proof.
  destruct s as [b lines ax].
  destruct b as [cols drawn sel base rad len prev rel frames].
  cbn [BrushDrawing.brush BrushDrawing._tool_lines BrushDrawing._ax
       Brush._tool_base_frame Brush._tool_relative_frames Brush._brush_frames
       Brush._selection].
  intros Htotal -> -> -> Hl Hsel.
  destruct (length_four _ Hl) as (l1 & l2 & l3 & l4 & ->).
  unfold BrushDrawing._update_tool_frames.
  cbn [BrushDrawing.brush Brush._tool_relative_frames map BrushDrawing.update_loop].
  unfold mbind, BrushDrawing.update_one, BrushDrawing.tool_line_update_frames.
  assert (Hcases : (sel = 0 \/ sel = 1 \/ sel = 2 \/ sel = 3 \/ sel = 4)%Z) by lia.
  destruct Hcases as [-> | [-> | [-> | [-> | ->]]]];
    run_brush;
    do 4 (ask_allclose allclose Htotal; run_brush);
    (eexists; split; [reflexivity | split; [reflexivity | ]]);
    intros Hrefl r Hnth Hpos; try lia;
    try match goal with
        | H : allclose (np.of_mat4 ?x) (np.of_mat4 ?x) = Ok false |- _ =>
            rewrite Hrefl in H; discriminate H
        end;
    norm_to_nat; norm_to_nat_in Hnth;
    cbn [nth_error] in *; injection Hnth as <-; reflexivity.
Qed.

Lemma draw_all
      (allclose : pyobj -> pyobj -> result bool)
      (s : BrushDrawing.t) (F r1 r2 r3 r4 : mat4) :
  Brush._tool_base_frame (BrushDrawing.brush s) = np.of_mat4 F ->
  Brush._tool_relative_frames (BrushDrawing.brush s) =
    map np.of_mat4 [r1; r2; r3; r4] ->
  List.length (Brush._brush_frames (BrushDrawing.brush s)) = 4%nat ->
  List.length (BrushDrawing._tool_lines s) = 4%nat ->
  BrushDrawing._draw allclose true s =
    (Ok tt,
     BrushDrawing.mk
       (BrushDrawing.with_drawn_once
          (BrushDrawing.with_brush_frames (BrushDrawing.brush s)
             (tool_tips F [r1; r2; r3; r4]))
          true)
       (tool_lines_shown F [r1; r2; r3; r4])
       (BrushDrawing._ax s)).
Proof.
  intros HF Hr Hf Hl.
  unfold BrushDrawing._draw, mbind.
  destruct (Brush._drawn_once (BrushDrawing.brush s)) eqn:Hd; cbn [negb].
  - rewrite (update_tool_frames_all allclose s HF Hr Hf Hl).
    destruct s as [[cols drawn sel base rad len prev rel frames] lines ax].
    cbn in Hd. subst drawn. reflexivity.
  - rewrite (update_tool_frames_all allclose s HF Hr Hf Hl).
    rewrite (@update_tool_frames_all allclose _ F r1 r2 r3 r4);
      [reflexivity | exact HF | exact Hr | reflexivity | reflexivity].
Qed.

(** X22.  [show_all]: with a (4,4) base frame F and four (4,4) relative
    frames, every brush frame becomes F times its relative frame, every
    tool line runs from F to that product, the brush is marked as drawn
    and nothing is plotted. *)
Theorem show_all_extends_every_line
        (allclose : pyobj -> pyobj -> result bool)
        (s : BrushDrawing.t) (F r1 r2 r3 r4 : mat4) :
  Brush._tool_base_frame (BrushDrawing.brush s) = np.of_mat4 F ->
  Brush._tool_relative_frames (BrushDrawing.brush s) =
    map np.of_mat4 [r1; r2; r3; r4] ->
  List.length (Brush._brush_frames (BrushDrawing.brush s)) = 4%nat ->
  List.length (BrushDrawing._tool_lines s) = 4%nat ->
  let out := BrushDrawing.show_all allclose s in
  fst out = Ok tt /\
  Brush._brush_frames (BrushDrawing.brush (snd out)) = tool_tips F [r1; r2; r3; r4] /\
  BrushDrawing._tool_lines (snd out) = tool_lines_shown F [r1; r2; r3; r4] /\
  Brush._drawn_once (BrushDrawing.brush (snd out)) = true /\
  BrushDrawing._ax (snd out) = BrushDrawing._ax s.
Proof.
  intros HF Hr Hf Hl out. subst out. unfold BrushDrawing.show_all.
  rewrite (@draw_all allclose s F r1 r2 r3 r4 HF Hr Hf Hl). repeat split.
Qed.

(** X23.  [update_tool_frame] with a (4,4) frame F: the frame becomes the
    base of the tool and every brush frame becomes F times its relative
    frame, so that the frame of the selected tool k is F times the k-th
    relative frame; with no tool selected the selected frame stays the
    identity. *)
Theorem update_tool_frame_composes
        (allclose : pyobj -> pyobj -> result bool)
        (s : BrushDrawing.t) (F r1 r2 r3 r4 o1 o2 o3 o4 : mat4) :
  (forall a b : mat4, exists c, allclose (np.of_mat4 a) (np.of_mat4 b) = Ok c) ->
  Brush._tool_relative_frames (BrushDrawing.brush s) =
    map np.of_mat4 [r1; r2; r3; r4] ->
  Brush._brush_frames (BrushDrawing.brush s) = map np.of_mat4 [o1; o2; o3; o4] ->
  List.length (BrushDrawing._tool_lines s) = 4%nat ->
  (0 <= Brush._selection (BrushDrawing.brush s) <= 4)%Z ->
  let out := BrushDrawing.update_tool_frame allclose (np.of_mat4 F) s in
  let b' := BrushDrawing.brush (snd out) in
  fst out = Ok tt /\
  Brush._tool_base_frame b' = np.of_mat4 F /\
  Brush._brush_frames b' = tool_tips F [r1; r2; r3; r4] /\
  Brush._tool_relative_frames b' = Brush._tool_relative_frames (BrushDrawing.brush s) /\
  Brush._selection b' = Brush._selection (BrushDrawing.brush s) /\
  BrushDrawing._ax (snd out) = BrushDrawing._ax s /\
  (Brush._selection (BrushDrawing.brush s) = 0%Z ->
   Brush.selected_brush_frame b' = Ok np.eye4) /\
  (forall r,
      (1 <= Brush._selection (BrushDrawing.brush s))%Z ->
      nth_error [r1; r2; r3; r4]
                (Z.to_nat (Brush._selection (BrushDrawing.brush s) - 1)) = Some r ->
      Brush.selected_brush_frame b' = Ok (np.of_mat4 (mmul4 F r))).
Proof.
  intros Htotal Hr Ho Hl Hsel out b'. subst b' out.
  unfold BrushDrawing.update_tool_frame.
  destruct (@update_tool_frames_enabled allclose
              (BrushDrawing.mk
                 (BrushDrawing.with_tool_base_frame (BrushDrawing.brush s) (np.of_mat4 F))
                 (BrushDrawing._tool_lines s) (BrushDrawing._ax s))
              F r1 r2 r3 r4 o1 o2 o3 o4 Htotal eq_refl Hr Ho Hl Hsel)
    as (lines & E & _ & _).
  cbv zeta. rewrite E. clear E.
  destruct s as [[cols drawn sel base rad len prev rel frames] ls ax].
  cbn [BrushDrawing.brush Brush._selection] in Hsel |- *.
  cbn [fst snd BrushDrawing.brush BrushDrawing._ax BrushDrawing.with_brush_frames
       BrushDrawing.with_tool_base_frame Brush._tool_base_frame Brush._brush_frames
       Brush._tool_relative_frames Brush._selection Brush._colors Brush._drawn_once
       Brush.l_t_rad Brush.l_t Brush._previously_selected_brush_frame].
  repeat (split; [reflexivity | ]). split.
  - intros ->. reflexivity.
  - intros r H1 Hnth.
    assert (Hcases : (sel = 1 \/ sel = 2 \/ sel = 3 \/ sel = 4)%Z) by lia.
    destruct Hcases as [-> | [-> | [-> | ->]]];
      norm_to_nat_in Hnth; cbn [nth_error] in Hnth; injection Hnth as <-;
      reflexivity.
Qed.

(** X24.  [show_enabled]: when [np.allclose] answers True on equal
    arrays, the line of the selected tool k runs from the base frame F to
    F times the k-th relative frame. *)
Theorem show_enabled_extends_selected_line
        (allclose : pyobj -> pyobj -> result bool)
        (s : BrushDrawing.t) (F r1 r2 r3 r4 o1 o2 o3 o4 r : mat4) :
  (forall a b : mat4, exists c, allclose (np.of_mat4 a) (np.of_mat4 b) = Ok c) ->
  (forall a : mat4, allclose (np.of_mat4 a) (np.of_mat4 a) = Ok true) ->
  Brush._tool_base_frame (BrushDrawing.brush s) = np.of_mat4 F ->
  Brush._tool_relative_frames (BrushDrawing.brush s) =
    map np.of_mat4 [r1; r2; r3; r4] ->
  Brush._brush_frames (BrushDrawing.brush s) = map np.of_mat4 [o1; o2; o3; o4] ->
  List.length (BrushDrawing._tool_lines s) = 4%nat ->
  (1 <= Brush._selection (BrushDrawing.brush s) <= 4)%Z ->
  nth_error [r1; r2; r3; r4]
            (Z.to_nat (Brush._selection (BrushDrawing.brush s) - 1)) = Some r ->
  let out := BrushDrawing.show_enabled allclose s in
  fst out = Ok tt /\
  nth_error (BrushDrawing._tool_lines (snd out))
            (Z.to_nat (Brush._selection (BrushDrawing.brush s) - 1)) =
    Some (BrushDrawing.mkLine (np.of_mat4 F) (np.of_mat4 (mmul4 F r))) /\
  Brush._brush_frames (BrushDrawing.brush (snd out)) = tool_tips F [r1; r2; r3; r4] /\
  Brush._drawn_once (BrushDrawing.brush (snd out)) = true.
Proof.
  intros Htotal Hrefl HF Hr Ho Hl Hsel Hnth out. subst out.
  unfold BrushDrawing.show_enabled, BrushDrawing._draw, mbind.
  destruct (Brush._drawn_once (BrushDrawing.brush s)) eqn:Hd; cbn [negb].
  - destruct (@update_tool_frames_enabled allclose s F r1 r2 r3 r4 o1 o2 o3 o4
                Htotal HF Hr Ho Hl) as (lines & E & _ & Hline); [lia | ].
    rewrite E. cbn [fst snd BrushDrawing._tool_lines BrushDrawing.brush].
    split; [reflexivity | split; [ | split]].
    + apply Hline; [exact Hrefl | exact Hnth | lia].
    + reflexivity.
    + destruct s as [[cols drawn sel base rad len prev rel frames] ls ax].
      exact Hd.
  - assert (Hf : List.length (Brush._brush_frames (BrushDrawing.brush s)) = 4%nat)
      by (rewrite Ho; reflexivity).
    rewrite (update_tool_frames_all allclose s HF Hr Hf Hl).
    destruct (@update_tool_frames_enabled allclose
                (BrushDrawing.mk
                   (BrushDrawing.with_drawn_once
                      (BrushDrawing.with_brush_frames (BrushDrawing.brush s)
                         (tool_tips F [r1; r2; r3; r4])) true)
                   (tool_lines_shown F [r1; r2; r3; r4]) (BrushDrawing._ax s))
                F r1 r2 r3 r4 (mmul4 F r1) (mmul4 F r2) (mmul4 F r3) (mmul4 F r4)
                Htotal HF Hr eq_refl eq_refl)
      as (lines & E & _ & Hline);
      [cbn [BrushDrawing.brush BrushDrawing.with_drawn_once
            BrushDrawing.with_brush_frames Brush._selection]; lia | ].
    cbv beta iota zeta.
    cbn [BrushDrawing.brush BrushDrawing._tool_lines BrushDrawing._ax].
    rewrite E. cbn [fst snd BrushDrawing._tool_lines BrushDrawing.brush].
    split; [reflexivity | split; [ | split; reflexivity]].
    apply Hline; [exact Hrefl | exact Hnth | ].
    cbn [BrushDrawing.brush BrushDrawing.with_drawn_once
         BrushDrawing.with_brush_frames Brush._selection]. lia.
Qed.

Lemma ndarray_item_03 (m : mat4) : ndarray_item (np.of_mat4 m) 0 3 = Ok (m03 m).
Proof. reflexivity. Qed.

Lemma ndarray_item_13 (m : mat4) : ndarray_item (np.of_mat4 m) 1 3 = Ok (m13 m).
Proof. reflexivity. Qed.

Lemma ndarray_item_23 (m : mat4) : ndarray_item (np.of_mat4 m) 2 3 = Ok (m23 m).
Proof. reflexivity. Qed.

(** X25.  [paint] shows every tool, whatever the selection, and then, if a
    tool k is selected, plots one point: the translation part of F times
    the k-th relative frame, in the colour at position k - 1.  With no
    tool selected nothing is plotted. *)
Theorem paint_leaves_spot
        (allclose : pyobj -> pyobj -> result bool)
        (s : BrushDrawing.t) (F r1 r2 r3 r4 : mat4) :
  Brush._tool_base_frame (BrushDrawing.brush s) = np.of_mat4 F ->
  Brush._tool_relative_frames (BrushDrawing.brush s) =
    map np.of_mat4 [r1; r2; r3; r4] ->
  List.length (Brush._brush_frames (BrushDrawing.brush s)) = 4%nat ->
  List.length (BrushDrawing._tool_lines s) = 4%nat ->
  List.length (Brush._colors (BrushDrawing.brush s)) = 4%nat ->
  (0 <= Brush._selection (BrushDrawing.brush s) <= 4)%Z ->
  let out := BrushDrawing.paint allclose s in
  fst out = Ok tt /\
  BrushDrawing._tool_lines (snd out) = tool_lines_shown F [r1; r2; r3; r4] /\
  (Brush._selection (BrushDrawing.brush s) = 0%Z ->
   BrushDrawing._ax (snd out) = BrushDrawing._ax s) /\
  (forall r c,
      (1 <= Brush._selection (BrushDrawing.brush s))%Z ->
      nth_error [r1; r2; r3; r4]
                (Z.to_nat (Brush._selection (BrushDrawing.brush s) - 1)) = Some r ->
      nth_error (Brush._colors (BrushDrawing.brush s))
                (Z.to_nat (Brush._selection (BrushDrawing.brush s) - 1)) = Some c ->
      BrushDrawing._ax (snd out) =
        BrushDrawing._ax s ++
        [BrushDrawing.mkSpot (m03 (mmul4 F r)) (m13 (mmul4 F r)) (m23 (mmul4 F r)) c]).
Proof.
  intros HF Hr Hf Hl Hc Hsel out. subst out.
  unfold BrushDrawing.paint, mbind.
  rewrite (@draw_all allclose s F r1 r2 r3 r4 HF Hr Hf Hl).
  destruct s as [[cols drawn sel base rad len prev rel frames] ls ax].
  cbn [BrushDrawing.brush Brush._selection Brush._colors] in Hsel, Hc |- *.
  destruct (length_four _ Hc) as (c1 & c2 & c3 & c4 & ->).
  assert (Hcases : (sel = 0 \/ sel = 1 \/ sel = 2 \/ sel = 3 \/ sel = 4)%Z) by lia.
  destruct Hcases as [-> | [-> | [-> | [-> | ->]]]];
    cbn -[np.of_mat4 mmul4 ndarray_item]; norm_pos;
    cbn -[np.of_mat4 mmul4 ndarray_item];
    rewrite ?ndarray_item_03, ?ndarray_item_13, ?ndarray_item_23;
    cbn -[np.of_mat4 mmul4 ndarray_item];
    (split; [reflexivity | split; [reflexivity | split]]);
    try (intros E; discriminate E); try (intros _; reflexivity);
    intros r c H1 Hnr Hnc; try lia;
    norm_to_nat_in Hnr; norm_to_nat_in Hnc;
    cbn [nth_error] in Hnr, Hnc;
    injection Hnr as <-; injection Hnc as <-; reflexivity.
Qed.


(** The instance of [np.allclose] answers on every pair of (4,4) arrays
    and answers True on equal ones. *)
Lemma allclose_same_shape_total (a b : mat4) :
  exists c, allclose_same_shape (np.of_mat4 a) (np.of_mat4 b) = Ok c.
Proof. eexists. reflexivity. Qed.

Lemma isclose_refl (a : R) : isclose a a = true.
Proof.
  unfold isclose. destruct (Rle_dec (Rabs (a - a)) (1e-8 + 1e-5 * Rabs a)) as [_|H];
    [reflexivity | ].
  exfalso. apply H. replace (a - a) with 0 by ring. rewrite Rabs_R0.
  pose proof (Rabs_pos a). lra.
Qed.

Lemma all_isclose_refl (d : list R) : all_isclose d d = true.
Proof.
  induction d as [|a d IH]; [reflexivity | ].
  cbn [all_isclose]. now rewrite isclose_refl, IH.
Qed.

Lemma allclose_same_shape_refl (a : mat4) :
  allclose_same_shape (np.of_mat4 a) (np.of_mat4 a) = Ok true.
Proof.
  unfold allclose_same_shape, np.of_mat4.
  destruct (list_eq_dec Nat.eq_dec [4; 4]%nat [4; 4]%nat) as [_|H];
    [ | now contradiction H].
  now rewrite all_isclose_refl.
Qed.

Lemma show_all_extends_every_line_witness :
  BrushDrawing._tool_lines (snd (BrushDrawing.show_all allclose_same_shape example_view)) =
  tool_lines_shown I4
    [ tool_frame_std (5 * PI / 4); tool_frame_std (7 * PI / 4);
      tool_frame_std (PI / 4); tool_frame_std (3 * PI / 4) ].
Proof.
  apply (@show_all_extends_every_line allclose_same_shape example_view I4
           (tool_frame_std (5 * PI / 4)) (tool_frame_std (7 * PI / 4))
           (tool_frame_std (PI / 4)) (tool_frame_std (3 * PI / 4)));
    reflexivity.
Defined.

Lemma update_tool_frame_composes_witness :
  Brush.selected_brush_frame
    (BrushDrawing.brush
       (snd (BrushDrawing.update_tool_frame allclose_same_shape
               (np.of_mat4 example_mount) example_view))) =
  Ok (np.of_mat4 (mmul4 example_mount (tool_frame_std (7 * PI / 4)))).
Proof.
  refine (proj2 (proj2 (proj2 (proj2 (proj2 (proj2 (proj2
            (@update_tool_frame_composes allclose_same_shape example_view
               example_mount
               (tool_frame_std (5 * PI / 4)) (tool_frame_std (7 * PI / 4))
               (tool_frame_std (PI / 4)) (tool_frame_std (3 * PI / 4))
               I4 I4 I4 I4 allclose_same_shape_total eq_refl eq_refl eq_refl _)))))))
            (tool_frame_std (7 * PI / 4)) _ eq_refl).
  - cbn. lia.
  - cbn. lia.
Defined.

Lemma show_enabled_extends_selected_line_witness :
  nth_error
    (BrushDrawing._tool_lines
       (snd (BrushDrawing.show_enabled allclose_same_shape example_view))) 1 =
  Some (BrushDrawing.mkLine (np.of_mat4 I4)
          (np.of_mat4 (mmul4 I4 (tool_frame_std (7 * PI / 4))))).
Proof.
  refine (proj1 (proj2
            (@show_enabled_extends_selected_line allclose_same_shape example_view I4
               (tool_frame_std (5 * PI / 4)) (tool_frame_std (7 * PI / 4))
               (tool_frame_std (PI / 4)) (tool_frame_std (3 * PI / 4))
               I4 I4 I4 I4 (tool_frame_std (7 * PI / 4))
               allclose_same_shape_total allclose_same_shape_refl
               eq_refl eq_refl eq_refl eq_refl _ eq_refl))).
  cbn. lia.
Defined.

Lemma paint_leaves_spot_witness :
  BrushDrawing._ax (snd (BrushDrawing.paint allclose_same_shape example_view)) =
  [ BrushDrawing.mkSpot
      (m03 (mmul4 I4 (tool_frame_std (7 * PI / 4))))
      (m13 (mmul4 I4 (tool_frame_std (7 * PI / 4))))
      (m23 (mmul4 I4 (tool_frame_std (7 * PI / 4))))
      [0.9290; 0.6940; 0.1250] ].
Proof.
  refine (proj2 (proj2 (proj2
            (@paint_leaves_spot allclose_same_shape example_view I4
               (tool_frame_std (5 * PI / 4)) (tool_frame_std (7 * PI / 4))
               (tool_frame_std (PI / 4)) (tool_frame_std (3 * PI / 4))
               eq_refl eq_refl eq_refl eq_refl eq_refl _)))
            (tool_frame_std (7 * PI / 4)) [0.9290; 0.6940; 0.1250] _ eq_refl eq_refl).
  - cbn. lia.
  - cbn. lia.
Defined.

